(** * go-hash: the record encoding engine and its argon2 plug-in

    A shallow embedding of [hash/hash.go] (package [hash]: [Hash],
    [VerifyHash], [NeedsRehash], [parseHash]) and of the argon2 plug-in
    (package [gohash]: [Configure], [configureArgon], [Hash]), with the
    parts of the Go standard library they call ([strings.Split],
    [strconv.ParseInt], [encoding/base64]) written out.

    Conventions.
    - A Go [string] is a [string]; a [[]byte] is a [list byte]; Go integers
      are [Z], with conversions ([byte(..)], [uint32(..)]) written as [mod].
    - A Go function returning [(v, err)] is a function into [result]:
      [Ok v] is [(v, nil)], [Err e] is [(zero, e)], and [Panic p] is a
      run-time panic (index out of range, nil dereference, a panic of the
      argon2 library).
    - The cryptographic primitives (the argon2 key derivation of
      [golang.org/x/crypto/argon2] and HMAC-SHA256) and the outcome of
      [crypto/rand.Read] are parameters. *)

From Stdlib Require Import ZArith Lia List Ascii String DecimalString.
From Stdlib.Strings Require Import Byte.
From Stdlib Require DecimalPos DecimalN.
From stdpp Require Import base option list gmap strings.

Local Open Scope Z_scope.

(** ** Errors, panics and results *)

Inductive error : Type :=
| errUnknownHashImpl                 (* hash.go: "unknown hash implementation" *)
| errBadHashFormat                   (* hash.go: "invalid hash format" *)
| errBadParameters                   (* argon2: "malformed gohash parameters" *)
| errUnknownHashMod                  (* argon2: "unknown gohash modus" *)
| errBadHashSize                     (* argon2: "bad gohash size" *)
| CorruptInputError (offset : Z).    (* encoding/base64 *)

Inductive panic : Type :=
| IndexOutOfRange (index len : Z)    (* s[i] with i >= len(s) *)
| NilDereference                     (* method call on a nil interface, *uc on nil *)
| Argon2RoundsTooSmall               (* argon2 library: time < 1 *)
| Argon2ParallelismTooLow.           (* argon2 library: threads < 1 *)

Inductive result (A : Type) : Type :=
| Ok (a : A)
| Err (e : error)
| Panic (p : panic).
Arguments Ok {A} a.
Arguments Err {A} e.
Arguments Panic {A} p.

#[global] Instance error_eq_dec : EqDecision error.
Proof. solve_decision. Defined.

#[global] Instance result_ret : MRet result := fun A a => Ok a.
#[global] Instance result_bind : MBind result := fun A B f m =>
  match m with
  | Ok a => f a
  | Err e => Err e
  | Panic p => Panic p
  end.
#[global] Instance result_fmap : FMap result := fun A B f m =>
  match m with
  | Ok a => Ok (f a)
  | Err e => Err e
  | Panic p => Panic p
  end.

(** [l[i]] on a Go slice: panics when [i] is out of range. *)
Definition index {A} (l : list A) (i : nat) : result A :=
  match l !! i with
  | Some x => Ok x
  | None => Panic (IndexOutOfRange (Z.of_nat i) (Z.of_nat (length l)))
  end.

(** ** Bytes *)

Definition byte_to_Z (b : byte) : Z := Z.of_N (Byte.to_N b).

(** [byte(z)]: conversion to [uint8], keeping the low eight bits. *)
Definition byte_of_Z (z : Z) : byte :=
  match Byte.of_N (Z.to_N (z mod 256)) with
  | Some b => b
  | None => x00
  end.

#[global] Instance byte_eq_dec : EqDecision byte := Byte.byte_eq_dec.

Definition char_to_Z (c : ascii) : Z := Z.of_N (N_of_ascii c).

Definition uint32 (z : Z) : Z := z mod 2 ^ 32.

(** ** encoding/base64, [StdEncoding] (standard alphabet, [=] padding,
       not strict) *)

Module base64.

Definition encodeStd : string :=
  "ABCDEFGHIJKLMNOPQRSTUVWXYZabcdefghijklmnopqrstuvwxyz0123456789+/".

Definition padChar : ascii := "="%char.

(** [enc.encode[v]] for a six-bit [v]. *)
Definition encode (v : Z) : ascii :=
  match String.get (Z.to_nat v) encodeStd with
  | Some c => c
  | None => "A"%char
  end.

(** [enc.decodeMap[c]]: the position of [c] in the alphabet; [None] stands
    for the entry [0xff] of the table. *)
Fixpoint lookupFrom (alphabet : string) (i : Z) (c : ascii) : option Z :=
  match alphabet with
  | EmptyString => None
  | String a rest => if Ascii.eqb a c then Some i else lookupFrom rest (i + 1) c
  end.

Definition decodeMap (c : ascii) : option Z := lookupFrom encodeStd 0 c.

Definition sextet (val : Z) (shift : Z) : ascii :=
  encode (Z.land (Z.shiftr val shift) 63).

(** [EncodeToString]: three source bytes become four characters; a last
    block of one or two bytes is padded with [=]. *)
Fixpoint EncodeToString (src : list byte) : string :=
  match src with
  | [] => ""%string
  | [b0] =>
      let val := Z.shiftl (byte_to_Z b0) 16 in
      String (sextet val 18) (String (sextet val 12)
        (String padChar (String padChar "")))
  | [b0; b1] =>
      let val := Z.lor (Z.shiftl (byte_to_Z b0) 16) (Z.shiftl (byte_to_Z b1) 8) in
      String (sextet val 18) (String (sextet val 12)
        (String (sextet val 6) (String padChar "")))
  | b0 :: b1 :: b2 :: rest =>
      let val := Z.lor (Z.lor (Z.shiftl (byte_to_Z b0) 16)
                              (Z.shiftl (byte_to_Z b1) 8)) (byte_to_Z b2) in
      String (sextet val 18) (String (sextet val 12)
        (String (sextet val 6) (String (sextet val 0) (EncodeToString rest))))
  end.

Definition isNewline (c : ascii) : bool :=
  Ascii.eqb c "010"%char || Ascii.eqb c "013"%char.

(** The loops [for si < len(src) && (src[si] == '\n' || src[si] == '\r')]. *)
Fixpoint skipNewlines (src : string) (si : Z) : string * Z :=
  match src with
  | EmptyString => (src, si)
  | String c rest => if isNewline c then skipNewlines rest (si + 1) else (src, si)
  end.

(** The value [uint(dbuf[0])<<18 | uint(dbuf[1])<<12 | uint(dbuf[2])<<6 |
    uint(dbuf[3])] of a quantum; missing entries of [dbuf] are zero. *)
Definition quantumVal (dbuf : list Z) : Z :=
  Z.lor (Z.lor (Z.lor (Z.shiftl (nth 0 dbuf 0) 18) (Z.shiftl (nth 1 dbuf 0) 12))
               (Z.shiftl (nth 2 dbuf 0) 6)) (nth 3 dbuf 0).

(** The [dlen - 1] bytes a quantum of [dlen] characters stands for. *)
Definition quantumBytes (dbuf : list Z) : list byte :=
  let val := quantumVal dbuf in
  take (length dbuf - 1)%nat
    [byte_of_Z (Z.shiftr val 16); byte_of_Z (Z.shiftr val 8); byte_of_Z val].

(** [Decode], as the repetition of [decodeQuantum]: [si] is the index of
    the next character and [dbuf] holds the characters of the current
    quantum decoded so far. Line breaks are skipped; padding must complete
    the last quantum and nothing but line breaks may follow it. *)
Fixpoint decodeFrom (src : string) (si : Z) (dbuf : list Z) : result (list byte) :=
  match src with
  | EmptyString =>
      match dbuf with
      | [] => Ok []
      | _ => Err (CorruptInputError (si - Z.of_nat (length dbuf)))
      end
  | String c rest =>
      let si := si + 1 in
      match decodeMap c with
      | Some out =>
          let dbuf := dbuf ++ [out] in
          if (length dbuf =? 4)%nat
          then app (quantumBytes dbuf) <$> decodeFrom rest si []
          else decodeFrom rest si dbuf
      | None =>
          if isNewline c then decodeFrom rest si dbuf
          else if negb (Ascii.eqb c padChar) then Err (CorruptInputError (si - 1))
          else
            match length dbuf with
            | 0%nat | 1%nat => Err (CorruptInputError (si - 1))
            | 2%nat =>
                let '(rest1, si1) := skipNewlines rest si in
                match rest1 with
                | EmptyString => Err (CorruptInputError si1)
                | String c1 rest2 =>
                    if negb (Ascii.eqb c1 padChar)
                    then Err (CorruptInputError (si1 - 1))
                    else
                      let '(rest3, si3) := skipNewlines rest2 (si1 + 1) in
                      match rest3 with
                      | EmptyString => Ok (quantumBytes dbuf)
                      | _ => Err (CorruptInputError si3)
                      end
                end
            | _ =>
                let '(rest3, si3) := skipNewlines rest si in
                match rest3 with
                | EmptyString => Ok (quantumBytes dbuf)
                | _ => Err (CorruptInputError si3)
                end
            end
      end
  end.

Definition DecodeString (s : string) : result (list byte) := decodeFrom s 0 [].

End base64.

(** ** unicode/utf8, strings.Split *)

Module strings.

(** The width of the UTF-8 sequence that starts [s], as
    [utf8.DecodeRuneInString] reports it: an invalid or truncated sequence
    has width one. *)
Definition continuation (lo hi : Z) (s : string) : bool :=
  match s with
  | String c _ => (lo <=? char_to_Z c) && (char_to_Z c <=? hi)
  | EmptyString => false
  end.

Definition tail (s : string) : string :=
  match s with
  | String _ rest => rest
  | EmptyString => EmptyString
  end.

Definition runeWidth (s : string) : nat :=
  match s with
  | EmptyString => 0
  | String c rest =>
      let s0 := char_to_Z c in
      let '(sz, lo, hi) :=
        if s0 <? 128 then (1, 0, 0)
        else if s0 <? 194 then (1, 0, 0)
        else if s0 <? 224 then (2, 128, 191)
        else if s0 =? 224 then (3, 160, 191)
        else if s0 =? 237 then (3, 128, 159)
        else if s0 <? 240 then (3, 128, 191)
        else if s0 =? 240 then (4, 144, 191)
        else if s0 <? 244 then (4, 128, 191)
        else if s0 =? 244 then (4, 128, 143)
        else (1, 0, 0) in
      if sz =? 1 then 1%nat
      else if negb (continuation lo hi rest) then 1%nat
      else if sz =? 2 then 2%nat
      else if negb (continuation 128 191 (tail rest)) then 1%nat
      else if sz =? 3 then 3%nat
      else if negb (continuation 128 191 (tail (tail rest))) then 1%nat
      else 4%nat
  end.

Definition cons_head (c : ascii) (l : list string) : list string :=
  match l with
  | h :: t => String c h :: t
  | [] => [String c EmptyString]
  end.

(** [explode(s, -1)]: [s] cut into its UTF-8 sequences; [left] counts the
    bytes of the current sequence still to come. *)
Fixpoint explodeFrom (s : string) (left : nat) : list string :=
  match s with
  | EmptyString => []
  | String c rest =>
      let n := match left with O => runeWidth s | _ => left end in
      match n with
      | O | 1%nat => String c EmptyString :: explodeFrom rest 0
      | S n' => cons_head c (explodeFrom rest n')
      end
  end.

(** [s] cut at the leftmost, non-overlapping occurrences of a non-empty
    [sep]; [skip] counts the bytes of a separator just found that are still
    to be dropped. *)
Fixpoint splitFrom (sep s : string) (skip : nat) : list string :=
  match s with
  | EmptyString => [EmptyString]
  | String c rest =>
      match skip with
      | S k => splitFrom sep rest k
      | O =>
          if String.prefix sep s
          then EmptyString :: splitFrom sep rest (String.length sep - 1)
          else cons_head c (splitFrom sep rest 0)
      end
  end.

Definition Split (s sep : string) : list string :=
  match sep with
  | EmptyString => explodeFrom s 0
  | _ => splitFrom sep s 0
  end.

End strings.

(** ** strconv.ParseInt in base 10, and the [%d] verb of [fmt] *)

Module strconv.

Inductive NumError : Type := ErrSyntax | ErrRange.

Definition maxUint64 : Z := 2 ^ 64 - 1.

(** The loop of [ParseUint(s, 10, bitSize)] over the bytes of [s]: a byte
    that is no decimal digit is a syntax error, a value above [maxVal] (or
    one that overflows [uint64]) is a range error. *)
Fixpoint parseUintLoop (s : string) (n maxVal : Z) : NumError + Z :=
  match s with
  | EmptyString => inr n
  | String c rest =>
      let c := char_to_Z c in
      if (48 <=? c) && (c <=? 57) then
        let d := c - 48 in
        if n >=? maxUint64 / 10 + 1 then inl ErrRange
        else
          let n := n * 10 in
          let n1 := (n + d) mod 2 ^ 64 in
          if (n1 <? n) || (n1 >? maxVal) then inl ErrRange
          else parseUintLoop rest n1 maxVal
      else inl ErrSyntax
  end.

Definition ParseUint (s : string) (bitSize : Z) : NumError + Z :=
  match s with
  | EmptyString => inl ErrSyntax
  | _ => parseUintLoop s 0 (2 ^ bitSize - 1)
  end.

(** [ParseInt(s, 10, bitSize)]: an optional sign, then [ParseUint]; the
    value must lie in [-2^(bitSize-1) .. 2^(bitSize-1) - 1]. *)
Definition ParseInt (s : string) (bitSize : Z) : NumError + Z :=
  match s with
  | EmptyString => inl ErrSyntax
  | String s0 rest =>
      let '(neg, s) :=
        if Ascii.eqb s0 "+" then (false, rest)
        else if Ascii.eqb s0 "-" then (true, rest)
        else (false, s) in
      match ParseUint s bitSize with
      | inl e => inl e
      | inr un =>
          let cutoff := 2 ^ (bitSize - 1) in
          if negb neg && (un >=? cutoff) then inl ErrRange
          else if neg && (un >? cutoff) then inl ErrRange
          else inr (if neg then - un else un)
      end
  end.

(** [%d] of a non-negative integer. *)
Definition FormatUint (n : Z) : string :=
  NilZero.string_of_uint (N.to_uint (Z.to_N n)).

End strconv.

(** ** The plug-in contract: [type HashImplementation interface] (hash.go)

    A value of the interface is a value of some type together with that
    type's methods. [Configure] answers with a value of the receiver's own
    type, as the argon2 plug-in does. Only the methods the engine calls are
    listed, and [String]. *)

Class Methods (T : Type) : Type := {
  m_GetID : T -> string;
  m_Hash : T -> list byte -> list byte -> result (string * list byte);
  m_Configure : T -> string -> string -> Z -> result T;
  m_String : T -> string;
  m_GetDefaultHashSize : T -> Z;
}.

Record HashImplementation : Type := Iface {
  dyn_type : Type;
  dyn_methods : Methods dyn_type;
  dyn_value : dyn_type;
}.
Arguments Iface {_ _} _.

Module HashImplementation.

Definition GetID (h : HashImplementation) : string :=
  @m_GetID _ (dyn_methods h) (dyn_value h).

Definition Hash (h : HashImplementation) (password salt : list byte)
  : result (string * list byte) :=
  @m_Hash _ (dyn_methods h) (dyn_value h) password salt.

Definition Configure (h : HashImplementation) (parameters separator : string)
    (hashSize : Z) : result HashImplementation :=
  @Iface _ (dyn_methods h) <$>
    @m_Configure _ (dyn_methods h) (dyn_value h) parameters separator hashSize.

Definition GetDefaultHashSize (h : HashImplementation) : Z :=
  @m_GetDefaultHashSize _ (dyn_methods h) (dyn_value h).

End HashImplementation.

(** ** The argon2 plug-in (package gohash) *)

Module gohash.

Definition hashID : string := "argon2".
Definition argonNumParameters : nat := 3.
Definition argonDefaultMemoryPasses : Z := 4.
Definition argonDefaultMemorySize : Z := 64 * 1024.
Definition argonDefaultHashSize : Z := 32.
Definition argonDefaultMode : string := "id".

Definition argonModi : list string := ["i"; "id"].

Record argon2 : Type := mk_argon2 {
  MemoryPasses : Z;   (* uint32, time setting *)
  MemorySize : Z;     (* uint32, memory setting in KiB *)
  Mode : string;      (* i or id *)
  HashSize : Z;       (* uint32, size in bytes *)
}.

(** The value [init] registers under [hashID]. *)
Definition default : argon2 :=
  {| MemoryPasses := argonDefaultMemoryPasses;
     MemorySize := argonDefaultMemorySize;
     Mode := argonDefaultMode;
     HashSize := argonDefaultHashSize |}.

Definition encodedString (uc : argon2) : string :=
  Mode uc +:+ ":" +:+ strconv.FormatUint (MemoryPasses uc) +:+ ":" +:+
  strconv.FormatUint (MemorySize uc).

Fixpoint inStrArray (val : string) (array : list string) : bool :=
  match array with
  | [] => false
  | item :: rest => if String.eqb item val then true else inStrArray val rest
  end.

(** [nc := *uc] copies the receiver; the checks and the four assignments
    are made on the copy, whose address is returned. Here the copy is
    returned by value; [ptr.configureArgon] below has the addresses. *)
Definition configureArgon (uc : argon2) (mode : string)
    (hashSize passes memory : Z) : result argon2 :=
  let nc := uc in
  if negb (inStrArray mode argonModi) || (hashSize <=? 0) || (passes <=? 0)
     || (memory <=? 0)
  then Err errBadParameters
  else
    let nc := {| MemoryPasses := MemoryPasses nc; MemorySize := MemorySize nc;
                 Mode := mode; HashSize := HashSize nc |} in
    let nc := {| MemoryPasses := MemoryPasses nc; MemorySize := MemorySize nc;
                 Mode := Mode nc; HashSize := hashSize |} in
    let nc := {| MemoryPasses := passes; MemorySize := MemorySize nc;
                 Mode := Mode nc; HashSize := HashSize nc |} in
    let nc := {| MemoryPasses := MemoryPasses nc; MemorySize := memory;
                 Mode := Mode nc; HashSize := HashSize nc |} in
    Ok nc.

(** The parameter string is split, [passes] is read as an [int8] and
    [memory] as an [int32], and both are converted to [uint32] before
    [configureArgon] checks them. *)
Definition Configure (uc : argon2) (parameters separator : string)
    (hashSize : Z) : result argon2 :=
  let pars := strings.Split parameters separator in
  if (length pars <? argonNumParameters)%nat then Err errBadParameters
  else
    mode ← index pars 0;
    p1 ← index pars 1;
    match strconv.ParseInt p1 8 with
    | inl _ => Err errBadParameters
    | inr passes =>
        p2 ← index pars 2;
        match strconv.ParseInt p2 32 with
        | inl _ => Err errBadParameters
        | inr memory =>
            configureArgon uc mode (uint32 hashSize) (uint32 passes) (uint32 memory)
        end
    end.

Definition GetID (uc : argon2) : string := hashID.

Definition GetMode (uc : argon2) : string := Mode uc.

Definition GetDefaultHashSize (uc : argon2) : Z := argonDefaultHashSize.

Definition String (uc : argon2) : string :=
  "algo:" +:+ hashID +:+ " mode:" +:+ Mode uc +:+ " passes:" +:+
  strconv.FormatUint (MemoryPasses uc) +:+ " memory:" +:+
  strconv.FormatUint (MemorySize uc).

(** *** Key derivation

    [golang.org/x/crypto/argon2]: [Key] (argon2i) and [IDKey] (argon2id)
    panic when [time < 1] or [threads < 1] and otherwise derive [keyLen]
    bytes. The derivation itself is the parameter [deriveKey];
    [argonThreads] is [uint8(runtime.NumCPU() / 2)], fixed when the process
    starts. *)

Inductive variant : Type := argon2i | argon2id.

Section KeyDerivation.

Variable deriveKey :
  variant -> list byte -> list byte -> Z -> Z -> Z -> Z -> list byte.
Variable argonThreads : Z.

Definition goargon2 (v : variant) (password salt : list byte)
    (time memory threads keyLen : Z) : result (list byte) :=
  if time <? 1 then Panic Argon2RoundsTooSmall
  else if threads <? 1 then Panic Argon2ParallelismTooLow
  else Ok (deriveKey v password salt time memory threads keyLen).

Definition Hash (uc : argon2) (password : string) (salt : list byte)
  : result (string * list byte) :=
  h ← (if String.eqb (Mode uc) "i" then
         goargon2 argon2i (list_byte_of_string password) salt
           (MemoryPasses uc) (MemorySize uc) argonThreads (HashSize uc)
       else if String.eqb (Mode uc) "id" then
         goargon2 argon2id (list_byte_of_string password) salt
           (MemoryPasses uc) (MemorySize uc) argonThreads (HashSize uc)
       else Err errUnknownHashMod);
  Ok (encodedString uc, h).

(** [*argon2] as a [HashImplementation]; the interface passes the password
    as bytes. *)
#[local] Instance argon2_methods : Methods argon2 := {|
  m_GetID := GetID;
  m_Hash := fun uc password salt => Hash uc (string_of_list_byte password) salt;
  m_Configure := Configure;
  m_String := String;
  m_GetDefaultHashSize := GetDefaultHashSize;
|}.

Definition defaultImplementation : HashImplementation := Iface default.

(** [init]: the default configuration is registered under [hashID]. *)
Definition init (implementations : gmap string HashImplementation)
  : gmap string HashImplementation :=
  <[hashID := defaultImplementation]> implementations.

End KeyDerivation.

(** *** The receiver as a pointer

    The methods have receiver [uc *argon2]. Here the configurations live in
    a store addressed by locations, [configureArgon] reads the receiver
    ([nc := *uc]), works on the local copy and allocates it ([&nc]), and
    [SetHashSize] writes through the receiver. *)

Module ptr.

Definition loc : Type := positive.

Definition alloc (v : argon2) (h : gmap loc argon2) : loc * gmap loc argon2 :=
  let l := fresh (dom h) in (l, <[l := v]> h).

Definition configureArgon (uc : loc) (mode : string)
    (hashSize passes memory : Z) (h : gmap loc argon2)
  : result (loc * gmap loc argon2) :=
  match h !! uc with
  | None => Panic NilDereference
  | Some v =>
      let nc := v in
      if negb (inStrArray mode argonModi) || (hashSize <=? 0) || (passes <=? 0)
         || (memory <=? 0)
      then Err errBadParameters
      else
        let nc := {| MemoryPasses := MemoryPasses nc; MemorySize := MemorySize nc;
                     Mode := mode; HashSize := HashSize nc |} in
        let nc := {| MemoryPasses := MemoryPasses nc; MemorySize := MemorySize nc;
                     Mode := Mode nc; HashSize := hashSize |} in
        let nc := {| MemoryPasses := passes; MemorySize := MemorySize nc;
                     Mode := Mode nc; HashSize := HashSize nc |} in
        let nc := {| MemoryPasses := MemoryPasses nc; MemorySize := memory;
                     Mode := Mode nc; HashSize := HashSize nc |} in
        Ok (alloc nc h)
  end.

Definition Configure (uc : loc) (parameters separator : string)
    (hashSize : Z) (h : gmap loc argon2) : result (loc * gmap loc argon2) :=
  let pars := strings.Split parameters separator in
  if (length pars <? argonNumParameters)%nat then Err errBadParameters
  else
    mode ← index pars 0;
    p1 ← index pars 1;
    match strconv.ParseInt p1 8 with
    | inl _ => Err errBadParameters
    | inr passes =>
        p2 ← index pars 2;
        match strconv.ParseInt p2 32 with
        | inl _ => Err errBadParameters
        | inr memory =>
            configureArgon uc mode (uint32 hashSize) (uint32 passes)
              (uint32 memory) h
        end
    end.

(** [uc.HashSize = size]: the one method that writes to its receiver. *)
Definition SetHashSize (uc : loc) (size : Z) (h : gmap loc argon2)
  : result (gmap loc argon2) :=
  if size <=? 0 then Err errBadHashSize
  else
    match h !! uc with
    | None => Panic NilDereference
    | Some v =>
        Ok (<[uc := {| MemoryPasses := MemoryPasses v; MemorySize := MemorySize v;
                       Mode := Mode v; HashSize := size |}]> h)
    end.

End ptr.

End gohash.

(** ** The encoding engine (package hash, hash.go) *)

Module hash.

Definition DefaultAlgo : string := "argon2".
Definition MinHashParts : nat := 5.
Definition SaltSize : Z := 10.
Definition Separator : string := "$".
Definition ParameterSeparator : string := ":".

(** What one call of [crypto/rand.Read(b)] does: it writes [rand_data]
    (at most [len(b)] bytes of it) into [b] and reports an error or not. *)
Record RandRead : Type := {
  rand_data : list byte;
  rand_err : bool;
}.

(** [nil] is the empty list. *)
Definition GenerateRandomBytes (rnd : RandRead) (length : Z) : list byte :=
  let b := replicate (Z.to_nat length) x00 in
  let written := take (Z.to_nat length) (rand_data rnd) in
  let n := Z.of_nat (List.length written) in
  let b := (written ++ drop (List.length written) b)%list in
  if rand_err rnd || negb (n =? length) then [] else b.

(** [hmac.Equal]: equal length and equal contents. *)
Definition hmac_Equal (mac1 mac2 : list byte) : bool :=
  bool_decide (mac1 = mac2).

Section Engine.

(** [hmac_sha256 key message]: [hmac.New(sha256.New, key)], [Write(message)],
    [Sum(nil)]. *)
Variable hmac_sha256 : list byte -> list byte -> list byte.

(** The registry, as it is once every plug-in has run its [init]. *)
Variable HashImplementations : gmap string HashImplementation.

(** [hm.Write] never returns an error. *)
Definition hmacKey (params : string) (key : list byte) : result (list byte) :=
  let sum := hmac_sha256 (list_byte_of_string params) key in
  Ok sum.

(** The registry is read without a check that the entry exists, and the
    salt without a check that it was generated. *)
Definition Hash (rnd : RandRead) (input : list byte) : result string :=
  let hashImpl := DefaultAlgo in
  let hasher := HashImplementations !! hashImpl in
  let salt := GenerateRandomBytes rnd SaltSize in
  match hasher with
  | None => Panic NilDereference
  | Some hasher =>
      '(params, hash) ← HashImplementation.Hash hasher input salt;
      let hashSize := byte_of_Z (Z.of_nat (length hash)) in
      let salt := hashSize :: salt in
      let encodedSalt := base64.EncodeToString salt in
      let prefix := "$" +:+ hashImpl +:+ "$" +:+ params +:+ "$" +:+ encodedSalt +:+ "$" in
      hmacHash ← hmacKey prefix hash;
      let encodedHash := base64.EncodeToString hmacHash in
      Ok (prefix +:+ encodedHash)
  end.

Definition parseHash (hash : string)
  : result (HashImplementation * string * list byte * Z * string) :=
  let parts := strings.Split hash Separator in
  if (length parts <? MinHashParts)%nat then Err errBadHashFormat
  else
    id ← index parts 1;
    match HashImplementations !! id with
    | None => Err errUnknownHashImpl
    | Some hashImpl =>
        p3 ← index parts 3;
        match base64.DecodeString p3 with
        | Err _ => Err errBadHashFormat
        | Panic p => Panic p
        | Ok salt =>
            s0 ← index salt 0;
            let hashSize := byte_to_Z s0 in
            params ← index parts 2;
            let salt := drop 1 salt in
            key ← index parts 4;
            Ok (hashImpl, params, salt, hashSize, key)
        end
    end.

(** [Err e] is the Go result [(false, e)]. *)
Definition VerifyHash (hash : string) (input : list byte) : result bool :=
  '(hashImpl, paramStr, salt, hashSize, key) ← parseHash hash;
  hashImpl ← HashImplementation.Configure hashImpl paramStr ParameterSeparator
               (uint32 hashSize);
  '(_, otherKey) ← HashImplementation.Hash hashImpl input salt;
  hashed ← hmacKey (substring 0 (String.length hash - String.length key) hash)
             otherKey;
  baseMac ← base64.DecodeString key;
  Ok (hmac_Equal baseMac hashed).

Definition NeedsRehash (hash : string) : result bool :=
  '(hashImpl, _, salt, hashSize, _) ← parseHash hash;
  Ok (negb (String.eqb (HashImplementation.GetID hashImpl) DefaultAlgo)
      && (Z.of_nat (length salt) <? SaltSize)
      && (hashSize <? HashImplementation.GetDefaultHashSize hashImpl)).

End Engine.

End hash.

(** ** Vocabulary of the statements *)

(** [contains c s]: the byte [c] occurs in [s]. *)
Fixpoint contains (c : ascii) (s : string) : bool :=
  match s with
  | EmptyString => false
  | String a rest => Ascii.eqb a c || contains c rest
  end.

(** A registry in which every plug-in is stored under its own identifier,
    as [init] stores it. *)
Definition keyed_by_id (reg : gmap string HashImplementation) : Prop :=
  forall id impl, reg !! id = Some impl -> HashImplementation.GetID impl = id.

(** The decision [NeedsRehash] takes on a parsed record. *)
Definition rehash_policy (hashImpl : HashImplementation) (salt : list byte)
    (hashSize : Z) : bool :=
  negb (String.eqb (HashImplementation.GetID hashImpl) hash.DefaultAlgo)
  && (Z.of_nat (length salt) <? hash.SaltSize)
  && (hashSize <? HashImplementation.GetDefaultHashSize hashImpl).

(** The record from its start through the [$] that ends field 3, in the
    words of the specification of [VerifyHash], step 6. *)
Definition through_field3 (record : string) : string :=
  match strings.Split record hash.Separator with
  | f0 :: f1 :: f2 :: f3 :: _ =>
      f0 +:+ "$" +:+ f1 +:+ "$" +:+ f2 +:+ "$" +:+ f3 +:+ "$"
  | _ => EmptyString
  end.

(** [VerifyHash] compares the stored tag with the HMAC whose key is
    [macKey] and whose message is the candidate key. *)
Definition verifies_under (hmac_sha256 : list byte -> list byte -> list byte)
    (reg : gmap string HashImplementation) (record : string)
    (input : list byte) (macKey : string) : Prop :=
  forall impl params salt hashSize key impl' ps otherKey baseMac,
    hash.parseHash reg record = Ok (impl, params, salt, hashSize, key) ->
    HashImplementation.Configure impl params hash.ParameterSeparator
      (uint32 hashSize) = Ok impl' ->
    HashImplementation.Hash impl' input salt = Ok (ps, otherKey) ->
    base64.DecodeString key = Ok baseMac ->
    hash.VerifyHash hmac_sha256 reg record input =
      Ok (hash.hmac_Equal baseMac
            (hmac_sha256 (list_byte_of_string macKey) otherKey)).

(** ** Sample primitives and plug-ins, for instances of the theorems *)

Module sample.

(** A stand-in for the argon2 derivation: [keyLen] bytes taken from the
    password, the salt and zero padding. *)
Definition deriveKey (v : gohash.variant) (password salt : list byte)
    (time memory threads keyLen : Z) : list byte :=
  take (Z.to_nat keyLen)
    (password ++ salt ++ replicate (Z.to_nat keyLen) x00)%list.

(** A stand-in for HMAC-SHA256 that keeps both arguments apart. *)
Definition hmac (key message : list byte) : list byte :=
  (byte_of_Z (Z.of_nat (length key)) :: key ++ message)%list.

Definition threads : Z := 2.

(** A second plug-in, with identifier [plain]: the key is the salt followed
    by the password, and there is nothing to configure. *)
#[local] Instance plain_methods : Methods unit := {|
  m_GetID := fun _ => "plain";
  m_Hash := fun _ password salt => Ok (EmptyString, (salt ++ password)%list);
  m_Configure := fun u _ _ _ => Ok u;
  m_String := fun _ => "algo:plain";
  m_GetDefaultHashSize := fun _ => 64;
|}.

Definition plain : HashImplementation := Iface tt.

(** The registry after argon2's [init] alone, and with [plain] as well. *)
Definition registry : gmap string HashImplementation :=
  gohash.init deriveKey threads ∅.

(** The argon2 configuration in mode [i], one pass, 8 KiB, four bytes. *)
Definition argon2_i : HashImplementation :=
  @Iface _ (gohash.argon2_methods deriveKey threads)
    {| gohash.MemoryPasses := 1; gohash.MemorySize := 8;
       gohash.Mode := "i"; gohash.HashSize := 4 |}.

Definition registry2 : gmap string HashImplementation :=
  <["plain" := plain]> registry.

Definition password : list byte := list_byte_of_string "correct-password".

Definition random : hash.RandRead :=
  {| hash.rand_data := list_byte_of_string "0123456789"; hash.rand_err := false |}.

Definition no_random : hash.RandRead :=
  {| hash.rand_data := []; hash.rand_err := true |}.

End sample.

(** ** More vocabulary *)

(** The number of occurrences of the byte [c] in [s]. *)
Fixpoint count_char (c : ascii) (s : string) : nat :=
  match s with
  | EmptyString => 0
  | String a rest => (if Ascii.eqb a c then 1 else 0) + count_char c rest
  end.

(** [s] is made of characters of the base64 alphabet and of [=]. *)
Fixpoint base64_text (s : string) : bool :=
  match s with
  | EmptyString => true
  | String a rest =>
      (bool_decide (is_Some (base64.decodeMap a)) || Ascii.eqb a base64.padChar)
      && base64_text rest
  end.

(** The number a string of decimal digits stands for, read after [acc]. *)
Fixpoint uint_value (d : Decimal.uint) (acc : Z) : Z :=
  match d with
  | Decimal.Nil => acc
  | Decimal.D0 l => uint_value l (acc * 10 + 0)
  | Decimal.D1 l => uint_value l (acc * 10 + 1)
  | Decimal.D2 l => uint_value l (acc * 10 + 2)
  | Decimal.D3 l => uint_value l (acc * 10 + 3)
  | Decimal.D4 l => uint_value l (acc * 10 + 4)
  | Decimal.D5 l => uint_value l (acc * 10 + 5)
  | Decimal.D6 l => uint_value l (acc * 10 + 6)
  | Decimal.D7 l => uint_value l (acc * 10 + 7)
  | Decimal.D8 l => uint_value l (acc * 10 + 8)
  | Decimal.D9 l => uint_value l (acc * 10 + 9)
  end.

(** The argon2 variant a valid mode selects in [Hash]. *)
Definition variant_of_mode (mode : string) : gohash.variant :=
  if String.eqb mode "i" then gohash.argon2i else gohash.argon2id.

(** A registry that holds argon2 configurations only. *)
Definition argon2_only
    (deriveKey :
       gohash.variant -> list byte -> list byte -> Z -> Z -> Z -> Z -> list byte)
    (argonThreads : Z) (reg : gmap string HashImplementation) : Prop :=
  forall id impl, reg !! id = Some impl ->
    exists cfg, impl = @Iface _ (gohash.argon2_methods deriveKey argonThreads) cfg.

(** * Properties *)

(** ** Bytes and bit arithmetic *)

Lemma byte_to_Z_range (b : byte) : 0 <= byte_to_Z b < 256.
Proof.
  unfold byte_to_Z. pose proof (Byte.to_N_bounded b). lia.
Qed.

Lemma byte_of_to_Z (b : byte) : byte_of_Z (byte_to_Z b) = b.
Proof.
  unfold byte_of_Z. pose proof (byte_to_Z_range b) as Hr.
  rewrite Z.mod_small by lia. unfold byte_to_Z.
  rewrite N2Z.id, Byte.of_to_N. reflexivity.
Qed.

Lemma byte_of_Z_mod (z : Z) : byte_of_Z (z mod 256) = byte_of_Z z.
Proof. unfold byte_of_Z. rewrite Z.mod_mod by lia. reflexivity. Qed.

Lemma byte_of_Z_small (z : Z) (b : byte) :
  z mod 256 = byte_to_Z b -> byte_of_Z z = b.
Proof. intros H. rewrite <- byte_of_Z_mod, H. apply byte_of_to_Z. Qed.

(** [hi << k | lo] is [hi * 2^k + lo] when [lo] fits in [k] bits. *)
Lemma lor_disjoint (hi lo k : Z) :
  0 <= k -> 0 <= lo < 2 ^ k -> Z.lor (hi * 2 ^ k) lo = hi * 2 ^ k + lo.
Proof.
  intros Hk Hlo.
  assert (Z.land (hi * 2 ^ k) lo = 0) as Hland.
  { apply Z.bits_inj'. intros n Hn. rewrite Z.land_spec, Z.bits_0.
    destruct (Z.lt_ge_cases n k) as [Hlt | Hge].
    - rewrite Z.mul_pow2_bits_low by lia. reflexivity.
    - rewrite <- (Z.mod_small lo (2 ^ k)) by lia.
      rewrite Z.mod_pow2_bits_high by lia. apply andb_false_r. }
  rewrite <- Z.lxor_lor by exact Hland.
  symmetry. apply Z.add_nocarry_lxor. exact Hland.
Qed.

Lemma land_63 (x : Z) : Z.land x 63 = x mod 64.
Proof. change 63 with (Z.ones 6). rewrite Z.land_ones by lia. reflexivity. Qed.

(** ** base64: decoding inverts encoding *)

Module base64_facts.
Import base64.

Lemma six_bits (v : Z) :
  0 <= v < 64 -> exists n, (n < 64)%nat /\ v = Z.of_nat n.
Proof. intros H. exists (Z.to_nat v). lia. Qed.

Lemma below_64 (P : nat -> bool) :
  forallb P (seq 0 64) = true -> forall n, (n < 64)%nat -> P n = true.
Proof.
  intros H n Hn. rewrite forallb_forall in H. apply H.
  apply in_seq. lia.
Qed.

Lemma decodeMap_encode (v : Z) :
  0 <= v < 64 -> decodeMap (encode v) = Some v.
Proof.
  intros H. destruct (six_bits v H) as (n & Hn & ->).
  pose proof (below_64
    (fun n => bool_decide (decodeMap (encode (Z.of_nat n)) = Some (Z.of_nat n)))
    eq_refl n Hn) as Hb.
  apply bool_decide_eq_true in Hb. exact Hb.
Qed.

Lemma encode_not_separator (v : Z) :
  0 <= v < 64 -> encode v <> "$"%char.
Proof.
  intros H. destruct (six_bits v H) as (n & Hn & ->).
  pose proof (below_64
    (fun n => negb (Ascii.eqb (encode (Z.of_nat n)) "$")) eq_refl n Hn) as Hb.
  apply negb_true_iff, Ascii.eqb_neq in Hb. exact Hb.
Qed.

Lemma sextet_decode (val shift : Z) :
  decodeMap (sextet val shift) = Some (Z.shiftr val shift mod 64).
Proof.
  unfold sextet. rewrite land_63. apply decodeMap_encode.
  apply Z.mod_pos_bound. lia.
Qed.

Lemma sextet_not_separator (val shift : Z) : sextet val shift <> "$"%char.
Proof.
  unfold sextet. rewrite land_63. apply encode_not_separator.
  apply Z.mod_pos_bound. lia.
Qed.

(** One character of the alphabet is read into the current quantum. *)
Lemma decodeFrom_char (c : ascii) (v : Z) (rest : string) (si : Z) (dbuf : list Z) :
  decodeMap c = Some v ->
  decodeFrom (String c rest) si dbuf =
    if (length (dbuf ++ [v]) =? 4)%nat
    then app (quantumBytes (dbuf ++ [v])) <$> decodeFrom rest (si + 1) []
    else decodeFrom rest (si + 1) (dbuf ++ [v]).
Proof. intros H. cbn [decodeFrom]. rewrite H. reflexivity. Qed.

(** The three quanta [EncodeToString] writes, read back. *)
Lemma quantum3 (b0 b1 b2 : byte) :
  let val := Z.lor (Z.lor (Z.shiftl (byte_to_Z b0) 16)
                          (Z.shiftl (byte_to_Z b1) 8)) (byte_to_Z b2) in
  quantumBytes [Z.shiftr val 18 mod 64; Z.shiftr val 12 mod 64;
                Z.shiftr val 6 mod 64; Z.shiftr val 0 mod 64] = [b0; b1; b2].
Proof.
  intros val.
  pose proof (byte_to_Z_range b0) as H0. pose proof (byte_to_Z_range b1) as H1.
  pose proof (byte_to_Z_range b2) as H2.
  assert (val = byte_to_Z b0 * 65536 + byte_to_Z b1 * 256 + byte_to_Z b2) as Hval.
  { unfold val. rewrite !Z.shiftl_mul_pow2 by lia.
    rewrite (lor_disjoint (byte_to_Z b0) (byte_to_Z b1 * 2 ^ 8) 16) by lia.
    replace (byte_to_Z b0 * 2 ^ 16 + byte_to_Z b1 * 2 ^ 8)
      with ((byte_to_Z b0 * 256 + byte_to_Z b1) * 2 ^ 8) by lia.
    rewrite lor_disjoint by lia. lia. }
  unfold quantumBytes, quantumVal. cbn [length nth Nat.sub take].
  rewrite !Z.shiftr_div_pow2 by lia. rewrite !Z.shiftl_mul_pow2 by lia.
  set (s0 := val / 2 ^ 18 mod 64). set (s1 := val / 2 ^ 12 mod 64).
  set (s2 := val / 2 ^ 6 mod 64). set (s3 := val / 2 ^ 0 mod 64).
  assert (0 <= s0 < 64 /\ 0 <= s1 < 64 /\ 0 <= s2 < 64 /\ 0 <= s3 < 64) as Hs.
  { unfold s0, s1, s2, s3. repeat split; apply Z.mod_pos_bound; lia. }
  rewrite (lor_disjoint s0 (s1 * 2 ^ 12) 18) by lia.
  replace (s0 * 2 ^ 18 + s1 * 2 ^ 12) with ((s0 * 64 + s1) * 2 ^ 12) by lia.
  rewrite (lor_disjoint _ (s2 * 2 ^ 6) 12) by lia.
  replace ((s0 * 64 + s1) * 2 ^ 12 + s2 * 2 ^ 6)
    with (((s0 * 64 + s1) * 64 + s2) * 2 ^ 6) by lia.
  rewrite lor_disjoint by lia.
  assert (((s0 * 64 + s1) * 64 + s2) * 2 ^ 6 + s3 = val) as ->.
  { unfold s0, s1, s2, s3. rewrite Hval. change (2 ^ 0) with 1.
    change (2 ^ 6) with 64. change (2 ^ 12) with 4096.
    change (2 ^ 18) with 262144. Z.div_mod_to_equations. lia. }
  f_equal; [|f_equal; [|f_equal]]; apply byte_of_Z_small; rewrite Hval;
    change (2 ^ 16) with 65536; change (2 ^ 8) with 256; change (val / 1) with val;
    Z.div_mod_to_equations; lia.
Qed.

Lemma quantum2 (b0 b1 : byte) :
  let val := Z.lor (Z.shiftl (byte_to_Z b0) 16) (Z.shiftl (byte_to_Z b1) 8) in
  quantumBytes [Z.shiftr val 18 mod 64; Z.shiftr val 12 mod 64;
                Z.shiftr val 6 mod 64] = [b0; b1].
Proof.
  intros val.
  pose proof (byte_to_Z_range b0) as H0. pose proof (byte_to_Z_range b1) as H1.
  assert (val = byte_to_Z b0 * 65536 + byte_to_Z b1 * 256) as Hval.
  { unfold val. rewrite !Z.shiftl_mul_pow2 by lia.
    rewrite (lor_disjoint (byte_to_Z b0) (byte_to_Z b1 * 2 ^ 8) 16) by lia. lia. }
  unfold quantumBytes, quantumVal. cbn [length nth Nat.sub take].
  rewrite Z.lor_0_r.
  rewrite !Z.shiftr_div_pow2 by lia. rewrite !Z.shiftl_mul_pow2 by lia.
  set (s0 := val / 2 ^ 18 mod 64). set (s1 := val / 2 ^ 12 mod 64).
  set (s2 := val / 2 ^ 6 mod 64).
  assert (0 <= s0 < 64 /\ 0 <= s1 < 64 /\ 0 <= s2 < 64) as Hs.
  { unfold s0, s1, s2. repeat split; apply Z.mod_pos_bound; lia. }
  rewrite (lor_disjoint s0 (s1 * 2 ^ 12) 18) by lia.
  replace (s0 * 2 ^ 18 + s1 * 2 ^ 12) with ((s0 * 64 + s1) * 2 ^ 12) by lia.
  rewrite (lor_disjoint _ (s2 * 2 ^ 6) 12) by lia.
  assert ((s0 * 64 + s1) * 2 ^ 12 + s2 * 2 ^ 6 = val) as ->.
  { unfold s0, s1, s2. rewrite Hval.
    change (2 ^ 6) with 64. change (2 ^ 12) with 4096.
    change (2 ^ 18) with 262144. Z.div_mod_to_equations. lia. }
  f_equal; [|f_equal]; apply byte_of_Z_small; rewrite Hval;
    change (2 ^ 16) with 65536; change (2 ^ 8) with 256;
    Z.div_mod_to_equations; lia.
Qed.

Lemma quantum1 (b0 : byte) :
  let val := Z.shiftl (byte_to_Z b0) 16 in
  quantumBytes [Z.shiftr val 18 mod 64; Z.shiftr val 12 mod 64] = [b0].
Proof.
  intros val. pose proof (byte_to_Z_range b0) as H0.
  assert (val = byte_to_Z b0 * 65536) as Hval.
  { unfold val. rewrite Z.shiftl_mul_pow2 by lia. lia. }
  unfold quantumBytes, quantumVal. cbn [length nth Nat.sub take].
  rewrite Z.shiftl_0_l, !Z.lor_0_r.
  rewrite !Z.shiftr_div_pow2 by lia. rewrite !Z.shiftl_mul_pow2 by lia.
  set (s0 := val / 2 ^ 18 mod 64). set (s1 := val / 2 ^ 12 mod 64).
  assert (0 <= s0 < 64 /\ 0 <= s1 < 64) as Hs.
  { unfold s0, s1. repeat split; apply Z.mod_pos_bound; lia. }
  rewrite (lor_disjoint s0 (s1 * 2 ^ 12) 18) by lia.
  assert (s0 * 2 ^ 18 + s1 * 2 ^ 12 = val) as ->.
  { unfold s0, s1. rewrite Hval. change (2 ^ 12) with 4096.
    change (2 ^ 18) with 262144. Z.div_mod_to_equations. lia. }
  f_equal. apply byte_of_Z_small. rewrite Hval. change (2 ^ 16) with 65536.
  Z.div_mod_to_equations. lia.
Qed.

(** Lists taken three elements at a time, as the encoder takes them. *)
Lemma blocks_of_three {A : Type} (P : list A -> Prop) :
  P [] -> (forall a, P [a]) -> (forall a b, P [a; b]) ->
  (forall a b c l, P l -> P (a :: b :: c :: l)) ->
  forall l, P l.
Proof.
  intros H0 H1 H2 H3. fix rec 1.
  intros [|a [|b [|c l]]]; [exact H0 | apply H1 | apply H2 | apply H3, rec].
Qed.

(** Decoding what [EncodeToString] wrote gives the bytes back, wherever the
    text starts. *)
Lemma decodeFrom_EncodeToString (src : list byte) :
  forall si, decodeFrom (EncodeToString src) si [] = Ok src.
Proof.
  induction src as [|b0|b0 b1|b0 b1 b2 rest IH] using blocks_of_three; intros si.
  - reflexivity.
  - cbn [EncodeToString].
    rewrite (decodeFrom_char _ _ _ _ _ (sextet_decode _ 18)).
    cbn [app length Nat.eqb].
    rewrite (decodeFrom_char _ _ _ _ _ (sextet_decode _ 12)).
    cbn [app length Nat.eqb]. cbn -[quantumBytes Z.shiftr Z.shiftl Z.modulo].
    f_equal. apply quantum1.
  - cbn [EncodeToString].
    rewrite (decodeFrom_char _ _ _ _ _ (sextet_decode _ 18)).
    cbn [app length Nat.eqb].
    rewrite (decodeFrom_char _ _ _ _ _ (sextet_decode _ 12)).
    cbn [app length Nat.eqb].
    rewrite (decodeFrom_char _ _ _ _ _ (sextet_decode _ 6)).
    cbn [app length Nat.eqb]. cbn -[quantumBytes Z.shiftr Z.shiftl Z.modulo Z.lor].
    f_equal. apply quantum2.
  - cbn [EncodeToString].
    rewrite (decodeFrom_char _ _ _ _ _ (sextet_decode _ 18)).
    cbn [app length Nat.eqb].
    rewrite (decodeFrom_char _ _ _ _ _ (sextet_decode _ 12)).
    cbn [app length Nat.eqb].
    rewrite (decodeFrom_char _ _ _ _ _ (sextet_decode _ 6)).
    cbn [app length Nat.eqb].
    rewrite (decodeFrom_char _ _ _ _ _ (sextet_decode _ 0)).
    cbn [app length Nat.eqb].
    rewrite IH, quantum3. reflexivity.
Qed.

Lemma DecodeString_EncodeToString (src : list byte) :
  DecodeString (EncodeToString src) = Ok src.
Proof. apply decodeFrom_EncodeToString. Qed.

(** The alphabet and the padding have no [$]: an encoded text is one field
    of a record. *)
Lemma EncodeToString_one_field (src : list byte) :
  contains "$" (EncodeToString src) = false.
Proof.
  assert (forall val shift, Ascii.eqb (sextet val shift) "$" = false) as Hs.
  { intros val shift. apply Ascii.eqb_neq, sextet_not_separator. }
  induction src as [|b0|b0 b1|b0 b1 b2 rest IH] using blocks_of_three;
    cbn [EncodeToString contains]; rewrite ?Hs, ?IH; reflexivity.
Qed.

End base64_facts.

(** ** Strings: append, substring, and splitting at a one-byte separator *)

Module strings_facts.
Import strings.

Lemma app_cons (x : ascii) (a b : string) :
  String x a +:+ b = String x (a +:+ b).
Proof. reflexivity. Qed.

Lemma app_empty_l (b : string) : EmptyString +:+ b = b.
Proof. reflexivity. Qed.

Lemma app_assoc (a b c : string) : (a +:+ b) +:+ c = a +:+ (b +:+ c).
Proof.
  induction a as [|x a IH]; [reflexivity|].
  rewrite !app_cons. now rewrite IH.
Qed.

Lemma app_empty_r (a : string) : a +:+ EmptyString = a.
Proof.
  induction a as [|x a IH]; [reflexivity|].
  rewrite app_cons. now rewrite IH.
Qed.

Lemma length_app (a b : string) :
  String.length (a +:+ b) = (String.length a + String.length b)%nat.
Proof.
  induction a as [|x a IH]; [reflexivity|].
  rewrite app_cons. cbn [String.length Nat.add]. now rewrite IH.
Qed.

Lemma substring_all (a : string) :
  substring 0 (String.length a) a = a.
Proof.
  induction a as [|x a IH]; [reflexivity|].
  cbn [String.length substring]. now rewrite IH.
Qed.

Lemma substring_app (a b : string) :
  substring 0 (String.length a) (a +:+ b) = a.
Proof.
  induction a as [|x a IH].
  - destruct b; reflexivity.
  - rewrite app_cons. cbn [String.length substring]. now rewrite IH.
Qed.

(** [s[:len(s)-len(tail)]] of [s = front + tail] is [front]. *)
Lemma slice_off_tail (front tail : string) :
  substring 0 (String.length (front +:+ tail) - String.length tail)
    (front +:+ tail) = front.
Proof.
  rewrite length_app.
  replace (String.length front + String.length tail - String.length tail)%nat
    with (String.length front) by lia.
  apply substring_app.
Qed.

Lemma contains_app (c : ascii) (a b : string) :
  contains c (a +:+ b) = contains c a || contains c b.
Proof.
  induction a as [|x a IH]; [reflexivity|].
  rewrite app_cons. cbn [contains]. rewrite IH. now rewrite orb_assoc.
Qed.

Section OneByteSeparator.

Variable c : ascii.
Let sep : string := String c EmptyString.

Lemma prefix_one (a : ascii) (rest : string) :
  String.prefix sep (String a rest) = Ascii.eqb a c.
Proof.
  unfold sep. cbn. destruct (ascii_dec c a) as [->|Hne].
  - rewrite Ascii.eqb_refl. now destruct rest.
  - symmetry. apply Ascii.eqb_neq. congruence.
Qed.

Lemma splitFrom_step (a : ascii) (rest : string) :
  splitFrom sep (String a rest) 0 =
    if Ascii.eqb a c then EmptyString :: splitFrom sep rest 0
    else cons_head a (splitFrom sep rest 0).
Proof.
  cbn [splitFrom]. rewrite prefix_one. reflexivity.
Qed.

Lemma splitFrom_nonempty (s : string) : splitFrom sep s 0 <> [].
Proof.
  destruct s as [|a rest]; [discriminate|].
  rewrite splitFrom_step. destruct (Ascii.eqb a c); [discriminate|].
  destruct (splitFrom sep rest 0); discriminate.
Qed.

(** A string without the separator is one field. *)
Lemma splitFrom_free (s : string) :
  contains c s = false -> splitFrom sep s 0 = [s].
Proof.
  induction s as [|a rest IH]; [reflexivity|].
  cbn [contains]. intros [Ha Hrest]%orb_false_elim.
  rewrite splitFrom_step, Ha, IH by exact Hrest. reflexivity.
Qed.

(** A field, the separator, and more text: the field is split off. *)
Lemma splitFrom_field (f s : string) :
  contains c f = false ->
  splitFrom sep (f +:+ String c s) 0 = f :: splitFrom sep s 0.
Proof.
  induction f as [|a rest IH].
  - intros _. rewrite app_empty_l, splitFrom_step, Ascii.eqb_refl.
    reflexivity.
  - cbn [contains]. intros [Ha Hrest]%orb_false_elim.
    rewrite app_cons, splitFrom_step, Ha, IH by exact Hrest.
    reflexivity.
Qed.

(** Joining the fields with the separator gives the text back. *)
Lemma concat_splitFrom (s : string) :
  String.concat sep (splitFrom sep s 0) = s.
Proof.
  induction s as [|a rest IH]; [reflexivity|].
  rewrite splitFrom_step.
  pose proof (splitFrom_nonempty rest) as Hne.
  destruct (Ascii.eqb_spec a c) as [->|Hac].
  - destruct (splitFrom sep rest 0) as [|h t] eqn:E; [congruence|].
    change (String.concat sep (EmptyString :: h :: t))
      with (String c (String.concat sep (h :: t))).
    now rewrite IH.
  - destruct (splitFrom sep rest 0) as [|h t] eqn:E; [congruence|].
    cbn [cons_head]. rewrite <- IH.
    destruct t; reflexivity.
Qed.

End OneByteSeparator.

Lemma Split_one (c : ascii) (s : string) :
  Split s (String c EmptyString) = splitFrom (String c EmptyString) s 0.
Proof. reflexivity. Qed.

End strings_facts.

(** ** The engine: what [parseHash] returns *)

Module hash_facts.
Import hash.

Section Facts.

Variable HashImplementations : gmap string HashImplementation.

Lemma five_fields {A : Type} (parts : list A) :
  (length parts <? MinHashParts)%nat = false ->
  exists f0 f1 f2 f3 f4 rest, parts = f0 :: f1 :: f2 :: f3 :: f4 :: rest.
Proof.
  intros H%Nat.ltb_ge. unfold MinHashParts in H.
  destruct parts as [|f0 [|f1 [|f2 [|f3 [|f4 rest]]]]]; cbn in H; try lia.
  by exists f0, f1, f2, f3, f4, rest.
Qed.

(** Fewer than five fields: bad format. *)
Lemma parseHash_short (hash : string) :
  (length (strings.Split hash Separator) < 5)%nat ->
  parseHash HashImplementations hash = Err errBadHashFormat.
Proof.
  intros H. unfold parseHash.
  destruct (Nat.ltb_spec (length (strings.Split hash Separator)) MinHashParts)
    as [_|Hge]; [reflexivity|]. unfold MinHashParts in Hge. lia.
Qed.

(** Five fields or more: the registry, then the salt blob, decide. *)
Lemma parseHash_fields (hash f0 id params blob key : string) (rest : list string) :
  strings.Split hash Separator = f0 :: id :: params :: blob :: key :: rest ->
  parseHash HashImplementations hash =
    match HashImplementations !! id with
    | None => Err errUnknownHashImpl
    | Some hashImpl =>
        match base64.DecodeString blob with
        | Err _ => Err errBadHashFormat
        | Panic p => Panic p
        | Ok [] => Panic (IndexOutOfRange 0 0)
        | Ok (s0 :: salt) => Ok (hashImpl, params, salt, byte_to_Z s0, key)
        end
    end.
Proof.
  intros E. unfold parseHash. rewrite E. cbn.
  destruct (HashImplementations !! id) as [hashImpl|]; [|reflexivity].
  destruct (base64.DecodeString blob) as [[|s0 salt]|e|p]; reflexivity.
Qed.

Lemma parseHash_Ok (hash : string) (hashImpl : HashImplementation)
    (params : string) (salt : list byte) (hashSize : Z) (key : string) :
  parseHash HashImplementations hash = Ok (hashImpl, params, salt, hashSize, key) ->
  exists f0 id blob rest s0,
    strings.Split hash Separator = f0 :: id :: params :: blob :: key :: rest /\
    HashImplementations !! id = Some hashImpl /\
    base64.DecodeString blob = Ok (s0 :: salt) /\
    hashSize = byte_to_Z s0.
Proof.
  intros H.
  destruct (Nat.ltb (length (strings.Split hash Separator)) MinHashParts) eqn:El.
  { unfold parseHash in H. rewrite El in H. discriminate. }
  destruct (five_fields _ El) as (f0 & id & f2 & blob & f4 & rest & E).
  rewrite (parseHash_fields _ _ _ _ _ _ _ E) in H.
  destruct (HashImplementations !! id) as [impl|] eqn:Ei; [|discriminate].
  destruct (base64.DecodeString blob) as [[|s0 salt']|e|p] eqn:Ed;
    try discriminate.
  injection H as -> -> -> <- ->.
  by exists f0, id, blob, rest, s0.
Qed.

(** The only errors of [parseHash] are its own two. *)
Lemma parseHash_Err (hash : string) (e : error) :
  parseHash HashImplementations hash = Err e ->
  e = errBadHashFormat \/ e = errUnknownHashImpl.
Proof.
  intros H.
  destruct (Nat.ltb (length (strings.Split hash Separator)) MinHashParts) eqn:El.
  { unfold parseHash in H. rewrite El in H. injection H as <-. by left. }
  destruct (five_fields _ El) as (f0 & id & f2 & blob & f4 & rest & E).
  rewrite (parseHash_fields _ _ _ _ _ _ _ E) in H.
  destruct (HashImplementations !! id) as [impl|].
  - destruct (base64.DecodeString blob) as [[|s0 salt']|e'|p];
      try discriminate. injection H as <-. by left.
  - injection H as <-. by right.
Qed.

(** A record put together from five fields without [$] parses into them. *)
Lemma Split_record (f0 id params blob key : string) :
  contains "$" f0 = false -> contains "$" id = false ->
  contains "$" params = false -> contains "$" blob = false ->
  contains "$" key = false ->
  strings.Split (f0 +:+ "$" +:+ id +:+ "$" +:+ params +:+ "$" +:+ blob +:+ "$" +:+ key)
    Separator = [f0; id; params; blob; key].
Proof.
  intros H0 H1 H2 H3 H4. unfold Separator.
  rewrite strings_facts.Split_one.
  do 4 (rewrite ?strings_facts.app_cons, ?strings_facts.app_empty_l;
        rewrite strings_facts.splitFrom_field by assumption).
  rewrite strings_facts.splitFrom_free by assumption. reflexivity.
Qed.

End Facts.

End hash_facts.

(** ** The argon2 plug-in: [Configure] *)

Module gohash_facts.
Import gohash.

(** With three fields or more, [Configure] is decided by the two numbers
    and by [configureArgon]. *)
Lemma Configure_fields (uc : argon2) (parameters separator : string)
    (hashSize : Z) (mode p1 p2 : string) (rest : list string) :
  strings.Split parameters separator = mode :: p1 :: p2 :: rest ->
  Configure uc parameters separator hashSize =
    match strconv.ParseInt p1 8, strconv.ParseInt p2 32 with
    | inr passes, inr memory =>
        configureArgon uc mode (uint32 hashSize) (uint32 passes) (uint32 memory)
    | _, _ => Err errBadParameters
    end.
Proof.
  intros E. unfold Configure. rewrite E. cbn.
  destruct (strconv.ParseInt p1 8); [reflexivity|].
  destruct (strconv.ParseInt p2 32); reflexivity.
Qed.

Lemma Configure_too_few_fields (uc : argon2) (parameters separator : string)
    (hashSize : Z) :
  (length (strings.Split parameters separator) < 3)%nat ->
  Configure uc parameters separator hashSize = Err errBadParameters.
Proof.
  intros H. unfold Configure, argonNumParameters.
  destruct (Nat.ltb_spec (length (strings.Split parameters separator)) 3);
    [reflexivity | lia].
Qed.

(** [configureArgon] rejects an unknown mode and a zero among its three
    [uint32] arguments; it rejects nothing else. *)
Lemma configureArgon_spec (uc : argon2) (mode : string) (hashSize passes memory : Z) :
  0 <= hashSize -> 0 <= passes -> 0 <= memory ->
  configureArgon uc mode hashSize passes memory =
    if bool_decide ((mode = "i" \/ mode = "id") /\ hashSize <> 0 /\ passes <> 0
                    /\ memory <> 0)
    then Ok {| MemoryPasses := passes; MemorySize := memory; Mode := mode;
               HashSize := hashSize |}
    else Err errBadParameters.
Proof.
  intros Hh Hp Hm. unfold configureArgon, argonModi. cbn [inStrArray].
  destruct (String.eqb_spec "i" mode) as [<-|Hi];
    [|destruct (String.eqb_spec "id" mode) as [<-|Hid]];
    cbn [negb orb];
    destruct (Z.leb_spec hashSize 0), (Z.leb_spec passes 0),
      (Z.leb_spec memory 0); cbn [orb];
    case_bool_decide as Hd; try reflexivity; exfalso;
    try (destruct Hd as ([?|?] & ? & ? & ?); congruence || lia);
    try (apply Hd; repeat split; auto; lia).
Qed.

Lemma uint32_range (z : Z) : 0 <= uint32 z < 2 ^ 32.
Proof. unfold uint32. apply Z.mod_pos_bound. lia. Qed.

(** The conversion [uint32(passes)] comes before the test [passes <= 0]:
    a negative count passes the test as a large positive one. *)
Lemma uint32_negative (z : Z) : - 2 ^ 32 < z < 0 -> uint32 z = z + 2 ^ 32.
Proof.
  intros H. unfold uint32. symmetry.
  apply (Z.mod_unique_pos _ _ (-1)); lia.
Qed.

(** *** The receiver as a pointer *)

Lemma alloc_fresh (v : argon2) (h h' : gmap ptr.loc argon2) (l : ptr.loc) :
  ptr.alloc v h = (l, h') -> h !! l = None /\ h' = <[l := v]> h.
Proof.
  unfold ptr.alloc. intros [= <- <-]. split; [|reflexivity].
  apply not_elem_of_dom. apply is_fresh.
Qed.

(** [ptr.Configure] computes what [Configure] computes on the value the
    receiver points to, and allocates it. *)
Lemma ptr_Configure_refines (uc : ptr.loc) (v : argon2)
    (parameters separator : string) (hashSize : Z) (h : gmap ptr.loc argon2) :
  h !! uc = Some v ->
  ptr.Configure uc parameters separator hashSize h =
    (fun nc => ptr.alloc nc h) <$> Configure v parameters separator hashSize.
Proof.
  intros Hv. unfold ptr.Configure, Configure.
  destruct (length (strings.Split parameters separator) <? argonNumParameters)%nat;
    [reflexivity|].
  destruct (index (strings.Split parameters separator) 0) as [mode|e|p];
    [|reflexivity..]. cbn [mbind result_bind].
  destruct (index (strings.Split parameters separator) 1) as [p1|e|p];
    [|reflexivity..]. cbn [mbind result_bind].
  destruct (strconv.ParseInt p1 8) as [e|passes]; [reflexivity|].
  destruct (index (strings.Split parameters separator) 2) as [p2|e|p];
    [|reflexivity..]. cbn [mbind result_bind].
  destruct (strconv.ParseInt p2 32) as [e|memory]; [reflexivity|].
  unfold ptr.configureArgon, configureArgon. rewrite Hv.
  destruct (negb (inStrArray mode argonModi) || (uint32 hashSize <=? 0)
            || (uint32 passes <=? 0) || (uint32 memory <=? 0)); reflexivity.
Qed.

(** By contrast, [SetHashSize] changes the receiver. *)
Lemma SetHashSize_writes (uc : ptr.loc) (v : argon2) (size : Z)
    (h : gmap ptr.loc argon2) :
  h !! uc = Some v -> 0 < size ->
  exists h', ptr.SetHashSize uc size h = Ok h' /\
    HashSize <$> h' !! uc = Some size.
Proof.
  intros Hv Hs. unfold ptr.SetHashSize.
  destruct (Z.leb_spec size 0); [lia|]. rewrite Hv.
  eexists. split; [reflexivity|]. by rewrite lookup_insert_eq.
Qed.

End gohash_facts.

(** * The claims *)

(** ** The argon2 plug-in *)

(** C5 (evaluated where the claim fails). [Configure] reads the pass count
    [-1] as an [int8], converts it to [uint32] and only then tests
    [passes <= 0]: the parameter string [id:-1:65536] is accepted, with
    4294967295 passes, although its pass count is not positive. *)
Theorem Configure_accepts_negative_passes :
  gohash.Configure gohash.default "id:-1:65536" ":" 32 =
    Ok {| gohash.MemoryPasses := 4294967295; gohash.MemorySize := 65536;
          gohash.Mode := "id"; gohash.HashSize := 32 |}.
Proof. vm_compute. reflexivity. Qed.

(** The four rejections the specification lists do happen. *)
Lemma Configure_rejections :
  gohash.Configure gohash.default "x:4:65536" ":" 32 = Err errBadParameters /\
  gohash.Configure gohash.default "id:0:65536" ":" 32 = Err errBadParameters /\
  gohash.Configure gohash.default "id:4:0" ":" 32 = Err errBadParameters /\
  gohash.Configure gohash.default "id:4:65536" ":" 0 = Err errBadParameters.
Proof. repeat split; vm_compute; reflexivity. Qed.

(** A negative memory size is accepted in the same way. *)
Lemma Configure_accepts_negative_memory :
  gohash.Configure gohash.default "id:4:-1" ":" 32 =
    Ok {| gohash.MemoryPasses := 4; gohash.MemorySize := 4294967295;
          gohash.Mode := "id"; gohash.HashSize := 32 |}.
Proof. vm_compute. reflexivity. Qed.

(** C9. When [Configure] succeeds on a receiver [uc], the configuration
    stored at [uc] is the same afterwards (mode, passes, memory size and
    hash size alike), the result is at a new address, different from [uc]
    and unused before, nothing else in the store changed, and the new
    address holds the configuration computed from the arguments. *)
Theorem Configure_leaves_receiver (uc nc : gohash.ptr.loc) (v : gohash.argon2)
    (parameters separator : string) (hashSize : Z)
    (h h' : gmap gohash.ptr.loc gohash.argon2) :
  h !! uc = Some v ->
  gohash.ptr.Configure uc parameters separator hashSize h = Ok (nc, h') ->
  h' !! uc = Some v /\
  nc <> uc /\
  h !! nc = None /\
  (forall l, l <> nc -> h' !! l = h !! l) /\
  exists v', h' !! nc = Some v' /\
    gohash.Configure v parameters separator hashSize = Ok v'.
Proof.
  intros Hv H. rewrite (gohash_facts.ptr_Configure_refines _ _ _ _ _ _ Hv) in H.
  destruct (gohash.Configure v parameters separator hashSize) as [v'|e|p];
    try discriminate.
  cbn [fmap result_fmap] in H.
  assert (gohash.ptr.alloc v' h = (nc, h')) as H' by congruence. clear H.
  apply gohash_facts.alloc_fresh in H' as [Hfresh ->].
  assert (nc <> uc) as Hne by congruence.
  split; [by rewrite lookup_insert_ne|].
  split; [exact Hne|]. split; [exact Hfresh|].
  split; [intros l Hl; by rewrite lookup_insert_ne|].
  exists v'. split; [apply lookup_insert_eq | reflexivity].
Qed.

Lemma Configure_leaves_receiver_witness :
  exists nc h',
    gohash.ptr.Configure 1%positive "i:2:1024" ":" 16
      {[ 1%positive := gohash.default ]} = Ok (nc, h') /\
    h' !! 1%positive = Some gohash.default /\ nc <> 1%positive.
Proof.
  eexists _, _. split; [vm_compute; reflexivity|].
  pose proof (Configure_leaves_receiver 1%positive _ gohash.default
    "i:2:1024" ":" 16 {[ 1%positive := gohash.default ]} _
    eq_refl eq_refl) as (H1 & H2 & _).
  exact (conj H1 H2).
Defined.

(** ** The engine: [parseHash] and [NeedsRehash] *)

Section NeedsRehash.

Variable reg : gmap string HashImplementation.

Lemma NeedsRehash_parsed (record : string) (hashImpl : HashImplementation)
    (params : string) (salt : list byte) (hashSize : Z) (key : string) :
  hash.parseHash reg record = Ok (hashImpl, params, salt, hashSize, key) ->
  hash.NeedsRehash reg record = Ok (rehash_policy hashImpl salt hashSize).
Proof. intros H. unfold hash.NeedsRehash. rewrite H. reflexivity. Qed.

Lemma NeedsRehash_fields (record f0 id params blob key : string)
    (rest : list string) :
  strings.Split record hash.Separator = f0 :: id :: params :: blob :: key :: rest ->
  hash.NeedsRehash reg record =
    match reg !! id with
    | None => Err errUnknownHashImpl
    | Some hashImpl =>
        match base64.DecodeString blob with
        | Err _ => Err errBadHashFormat
        | Panic p => Panic p
        | Ok [] => Panic (IndexOutOfRange 0 0)
        | Ok (s0 :: salt) => Ok (rehash_policy hashImpl salt (byte_to_Z s0))
        end
    end.
Proof.
  intros E. unfold hash.NeedsRehash.
  rewrite (hash_facts.parseHash_fields _ _ _ _ _ _ _ _ E).
  destruct (reg !! id) as [hashImpl|]; [|reflexivity].
  destruct (base64.DecodeString blob) as [[|s0 salt]|e|p]; reflexivity.
Qed.

(** C2. On a record that parses, [NeedsRehash] answers with the conjunction
    of three tests; so it answers [true] only if the plug-in's identifier
    differs from the default one, the salt is shorter than ten bytes and
    the length byte is below the plug-in's default output length. In a
    registry that stores every plug-in under its identifier, the
    identifier is field 1 of the record, and a record whose field 1 is the
    default identifier gets [false], whatever its salt and length byte. *)
Theorem NeedsRehash_policy (record : string) (hashImpl : HashImplementation)
    (params : string) (salt : list byte) (hashSize : Z) (key : string) :
  hash.parseHash reg record = Ok (hashImpl, params, salt, hashSize, key) ->
  hash.NeedsRehash reg record = Ok (rehash_policy hashImpl salt hashSize) /\
  (hash.NeedsRehash reg record = Ok true ->
     HashImplementation.GetID hashImpl <> hash.DefaultAlgo /\
     Z.of_nat (length salt) < hash.SaltSize /\
     hashSize < HashImplementation.GetDefaultHashSize hashImpl) /\
  (keyed_by_id reg ->
     forall id, strings.Split record hash.Separator !! 1%nat = Some id ->
       (hash.NeedsRehash reg record = Ok true -> id <> hash.DefaultAlgo) /\
       (id = hash.DefaultAlgo -> hash.NeedsRehash reg record = Ok false)).
Proof.
  intros H. pose proof (NeedsRehash_parsed _ _ _ _ _ _ H) as Hn.
  assert (hash.NeedsRehash reg record = Ok true ->
          HashImplementation.GetID hashImpl <> hash.DefaultAlgo /\
          Z.of_nat (length salt) < hash.SaltSize /\
          hashSize < HashImplementation.GetDefaultHashSize hashImpl) as Honly.
  { rewrite Hn. intros [= Hp]. unfold rehash_policy in Hp.
    apply andb_prop in Hp as [[Ha Hb]%andb_prop Hc].
    apply negb_true_iff, String.eqb_neq in Ha.
    apply Z.ltb_lt in Hb, Hc. auto. }
  split; [exact Hn|]. split; [exact Honly|].
  intros Hkeyed id Hid.
  apply hash_facts.parseHash_Ok in H
    as (f0 & id' & blob & rest & s0 & E & Hreg & _ & _).
  rewrite E in Hid. injection Hid as ->.
  apply Hkeyed in Hreg. split.
  - intros Ht. rewrite <- Hreg. by apply Honly.
  - intros ->. rewrite Hn. unfold rehash_policy.
    rewrite Hreg, String.eqb_refl. reflexivity.
Qed.

(** C3 (amended). [NeedsRehash] takes steps 1 to 3 of [VerifyHash] only:
    the field count, the registry entry of field 1 and the decoding of
    field 3. It does not reconfigure the plug-in: two records that agree
    on those get the same answer, whatever their parameter strings, and
    the answer is never the bad-parameters error. *)
Theorem NeedsRehash_ignores_parameters (record record' : string) :
  (length (strings.Split record hash.Separator) <? hash.MinHashParts)%nat =
    (length (strings.Split record' hash.Separator) <? hash.MinHashParts)%nat ->
  strings.Split record hash.Separator !! 1%nat =
    strings.Split record' hash.Separator !! 1%nat ->
  strings.Split record hash.Separator !! 3%nat =
    strings.Split record' hash.Separator !! 3%nat ->
  hash.NeedsRehash reg record = hash.NeedsRehash reg record' /\
  hash.NeedsRehash reg record <> Err errBadParameters.
Proof.
  intros Hlen H1 H3.
  assert (hash.NeedsRehash reg record <> Err errBadParameters) as Hno.
  { unfold hash.NeedsRehash.
    destruct (hash.parseHash reg record) as [[[[[i ps] s] hs] k]|e|p] eqn:E;
      cbn; try discriminate.
    apply hash_facts.parseHash_Err in E as [-> | ->]; discriminate. }
  split; [|exact Hno].
  destruct (length (strings.Split record hash.Separator) <? hash.MinHashParts)%nat
    eqn:El.
  - symmetry in Hlen. apply Nat.ltb_lt in El, Hlen.
    unfold hash.NeedsRehash.
    rewrite !hash_facts.parseHash_short by assumption. reflexivity.
  - symmetry in Hlen.
    destruct (hash_facts.five_fields _ El) as (f0 & id & f2 & blob & f4 & rest & E).
    destruct (hash_facts.five_fields _ Hlen)
      as (f0' & id' & f2' & blob' & f4' & rest' & E').
    rewrite E, E' in H1, H3. injection H1 as ->. injection H3 as ->.
    rewrite (NeedsRehash_fields _ _ _ _ _ _ _ E).
    rewrite (NeedsRehash_fields _ _ _ _ _ _ _ E'). reflexivity.
Qed.

End NeedsRehash.

(** C10. A record with five fields or more, whose field 1 is registered
    and whose field 3 decodes to no bytes at all (the empty field does):
    [parseHash] reads [salt[0]] of an empty slice, and [parseHash],
    [VerifyHash] and [NeedsRehash] all end in an index-out-of-range panic
    instead of the bad-format error. *)
Theorem empty_salt_blob_panics (hmac_sha256 : list byte -> list byte -> list byte)
    (reg : gmap string HashImplementation) (record : string) (input : list byte)
    (f0 id params blob key : string) (rest : list string)
    (hashImpl : HashImplementation) :
  strings.Split record hash.Separator = f0 :: id :: params :: blob :: key :: rest ->
  reg !! id = Some hashImpl ->
  base64.DecodeString blob = Ok [] ->
  hash.parseHash reg record = Panic (IndexOutOfRange 0 0) /\
  hash.VerifyHash hmac_sha256 reg record input = Panic (IndexOutOfRange 0 0) /\
  hash.NeedsRehash reg record = Panic (IndexOutOfRange 0 0).
Proof.
  intros E Hreg Hblob.
  assert (hash.parseHash reg record = Panic (IndexOutOfRange 0 0)) as Hp.
  { rewrite (hash_facts.parseHash_fields _ _ _ _ _ _ _ _ E), Hreg, Hblob.
    reflexivity. }
  split; [exact Hp|].
  unfold hash.VerifyHash, hash.NeedsRehash. rewrite Hp. split; reflexivity.
Qed.

Lemma DecodeString_empty : base64.DecodeString EmptyString = Ok [].
Proof. reflexivity. Qed.

(** Instances: the sample registries are keyed by identifier. *)
Lemma sample_registry_keyed : keyed_by_id sample.registry.
Proof.
  intros id impl H. unfold sample.registry, gohash.init in H.
  apply lookup_insert_Some in H as [[<- <-]|[_ H]]; [reflexivity|].
  by rewrite lookup_empty in H.
Qed.

Lemma sample_registry2_keyed : keyed_by_id sample.registry2.
Proof.
  intros id impl H. unfold sample.registry2 in H.
  apply lookup_insert_Some in H as [[<- <-]|[_ H]]; [reflexivity|].
  by apply sample_registry_keyed.
Qed.

(** A record of the plug-in [plain] with a three-byte salt and length byte
    16 needs a rehash; the same blob under [argon2] does not. *)
Lemma NeedsRehash_policy_witness :
  hash.NeedsRehash sample.registry2 "$plain$$EAECAw==$x" = Ok true /\
  HashImplementation.GetID sample.plain <> hash.DefaultAlgo /\
  Z.of_nat (length [x01; x02; x03]) < hash.SaltSize /\
  16 < HashImplementation.GetDefaultHashSize sample.plain.
Proof.
  assert (hash.parseHash sample.registry2 "$plain$$EAECAw==$x"
          = Ok (sample.plain, EmptyString, [x01; x02; x03], 16, "x"%string)) as Hp
    by (vm_compute; reflexivity).
  pose proof (NeedsRehash_policy sample.registry2 "$plain$$EAECAw==$x"
    sample.plain EmptyString [x01; x02; x03] 16 "x" Hp) as (Hn & Honly & _).
  assert (hash.NeedsRehash sample.registry2 "$plain$$EAECAw==$x" = Ok true) as Ht
    by (vm_compute; reflexivity).
  split; [exact Ht|]. exact (Honly Ht).
Defined.

(** C3 (as stated, refuted). The parameter string [x:0:0] is rejected by
    [Configure] with the bad-parameters error, and [NeedsRehash] on a
    record carrying it returns [false] and no error. *)
Lemma NeedsRehash_bad_parameters_counterexample :
  strings.Split "$argon2$x:0:0$IAECAwQFBgcICQo=$AAAA" hash.Separator
    = [EmptyString; "argon2"; "x:0:0"; "IAECAwQFBgcICQo="; "AAAA"] /\
  sample.registry !! "argon2"
    = Some (gohash.defaultImplementation sample.deriveKey sample.threads) /\
  HashImplementation.Configure
    (gohash.defaultImplementation sample.deriveKey sample.threads)
    "x:0:0" hash.ParameterSeparator 32 = Err errBadParameters /\
  hash.NeedsRehash sample.registry "$argon2$x:0:0$IAECAwQFBgcICQo=$AAAA"
    = Ok false.
Proof. repeat split; vm_compute; reflexivity. Qed.

Lemma NeedsRehash_ignores_parameters_witness :
  hash.NeedsRehash sample.registry "$argon2$id:4:65536$IAECAwQFBgcICQo=$AAAA" =
  hash.NeedsRehash sample.registry "$argon2$x:0:0$IAECAwQFBgcICQo=$AAAA".
Proof.
  apply (NeedsRehash_ignores_parameters sample.registry
    "$argon2$id:4:65536$IAECAwQFBgcICQo=$AAAA"
    "$argon2$x:0:0$IAECAwQFBgcICQo=$AAAA"); vm_compute; reflexivity.
Defined.

Lemma empty_salt_blob_panics_witness :
  hash.parseHash sample.registry "$argon2$id:4:65536$$AAAA"
    = Panic (IndexOutOfRange 0 0) /\
  hash.VerifyHash sample.hmac sample.registry "$argon2$id:4:65536$$AAAA"
    sample.password = Panic (IndexOutOfRange 0 0) /\
  hash.NeedsRehash sample.registry "$argon2$id:4:65536$$AAAA"
    = Panic (IndexOutOfRange 0 0).
Proof.
  apply (empty_salt_blob_panics sample.hmac sample.registry
    "$argon2$id:4:65536$$AAAA" sample.password
    EmptyString "argon2" "id:4:65536" EmptyString "AAAA" []
    (gohash.defaultImplementation sample.deriveKey sample.threads));
    [vm_compute; reflexivity | reflexivity | reflexivity].
Defined.

(** ** The engine: [Hash] and [VerifyHash] *)

Section HashVerify.

Variable hmac_sha256 : list byte -> list byte -> list byte.
Variable reg : gmap string HashImplementation.

(** [VerifyHash], step by step. *)
Lemma VerifyHash_steps (record : string) (input : list byte) :
  hash.VerifyHash hmac_sha256 reg record input =
    match hash.parseHash reg record with
    | Ok (hashImpl, paramStr, salt, hashSize, key) =>
        match HashImplementation.Configure hashImpl paramStr
                hash.ParameterSeparator (uint32 hashSize) with
        | Ok hashImpl' =>
            match HashImplementation.Hash hashImpl' input salt with
            | Ok (_, otherKey) =>
                match base64.DecodeString key with
                | Ok baseMac =>
                    Ok (hash.hmac_Equal baseMac
                          (hmac_sha256
                             (list_byte_of_string
                                (substring 0 (String.length record - String.length key)
                                   record)) otherKey))
                | Err e => Err e
                | Panic q => Panic q
                end
            | Err e => Err e
            | Panic q => Panic q
            end
        | Err e => Err e
        | Panic q => Panic q
        end
    | Err e => Err e
    | Panic q => Panic q
    end.
Proof.
  unfold hash.VerifyHash, hash.hmacKey.
  destruct (hash.parseHash reg record) as [[[[[i ps] s] hs] k]|e|q];
    [|reflexivity..]. cbn [mbind result_bind].
  destruct (HashImplementation.Configure i ps hash.ParameterSeparator (uint32 hs))
    as [i'|e|q]; [|reflexivity..]. cbn [mbind result_bind].
  destruct (HashImplementation.Hash i' input s) as [[ps' other]|e|q];
    [|reflexivity..]. cbn [mbind result_bind].
  destruct (base64.DecodeString k) as [mac|e|q]; reflexivity.
Qed.

(** [Hash], once the default plug-in is found in the registry. *)
Lemma Hash_steps (rnd : hash.RandRead) (input : list byte)
    (hasher : HashImplementation) :
  reg !! hash.DefaultAlgo = Some hasher ->
  hash.Hash hmac_sha256 reg rnd input =
    let salt := hash.GenerateRandomBytes rnd hash.SaltSize in
    match HashImplementation.Hash hasher input salt with
    | Ok (params, derivedKey) =>
        let prefix :=
          "$" +:+ hash.DefaultAlgo +:+ "$" +:+ params +:+ "$" +:+
          base64.EncodeToString
            (byte_of_Z (Z.of_nat (length derivedKey)) :: salt) +:+ "$" in
        Ok (prefix +:+
            base64.EncodeToString
              (hmac_sha256 (list_byte_of_string prefix) derivedKey))
    | Err e => Err e
    | Panic q => Panic q
    end.
Proof.
  intros Hreg. unfold hash.Hash. rewrite Hreg. cbn zeta.
  destruct (HashImplementation.Hash hasher input
              (hash.GenerateRandomBytes rnd hash.SaltSize)) as [[ps k]|e|q];
    reflexivity.
Qed.

(** C6. A record returned by [Hash] is the prefix followed by the encoded
    tag: the prefix is [$], the default identifier, [$], the parameter
    string, [$], the encoding of the length byte followed by the salt, [$];
    the tag is the HMAC whose key is the bytes of that prefix and whose
    message is the derived key. *)
Theorem Hash_record (rnd : hash.RandRead) (input : list byte) (record : string) :
  hash.Hash hmac_sha256 reg rnd input = Ok record ->
  exists hasher paramString derivedKey,
    let salt := hash.GenerateRandomBytes rnd hash.SaltSize in
    let prefix :=
      "$" +:+ hash.DefaultAlgo +:+ "$" +:+ paramString +:+ "$" +:+
      base64.EncodeToString
        (byte_of_Z (Z.of_nat (length derivedKey)) :: salt) +:+ "$" in
    reg !! hash.DefaultAlgo = Some hasher /\
    HashImplementation.Hash hasher input salt = Ok (paramString, derivedKey) /\
    record = prefix +:+
      base64.EncodeToString
        (hmac_sha256 (list_byte_of_string prefix) derivedKey).
Proof.
  intros H.
  destruct (reg !! hash.DefaultAlgo) as [hasher|] eqn:Hreg.
  - rewrite (Hash_steps _ _ _ Hreg) in H. cbn zeta in H.
    destruct (HashImplementation.Hash hasher input
                (hash.GenerateRandomBytes rnd hash.SaltSize))
      as [[ps k]|e|q] eqn:Hh; try discriminate.
    injection H as <-. exists hasher, ps, k. cbn zeta. auto.
  - unfold hash.Hash in H. rewrite Hreg in H. discriminate.
Qed.

(** [VerifyHash] on a record in the shape [Hash] writes. *)
Lemma VerifyHash_record (id params : string) (b : byte) (salt tag : list byte)
    (hashImpl hashImpl' : HashImplementation) (input : list byte)
    (ps : string) (otherKey : list byte) :
  contains "$" id = false -> contains "$" params = false ->
  reg !! id = Some hashImpl ->
  HashImplementation.Configure hashImpl params hash.ParameterSeparator
    (uint32 (byte_to_Z b)) = Ok hashImpl' ->
  HashImplementation.Hash hashImpl' input salt = Ok (ps, otherKey) ->
  let prefix := "$" +:+ id +:+ "$" +:+ params +:+ "$" +:+
                base64.EncodeToString (b :: salt) +:+ "$" in
  hash.VerifyHash hmac_sha256 reg (prefix +:+ base64.EncodeToString tag) input =
    Ok (hash.hmac_Equal tag (hmac_sha256 (list_byte_of_string prefix) otherKey)).
Proof.
  intros Hid Hparams Hreg Hconf Hhash prefix.
  set (blob := base64.EncodeToString (b :: salt)) in *.
  set (key := base64.EncodeToString tag).
  assert (strings.Split (prefix +:+ key) hash.Separator
          = [EmptyString; id; params; blob; key]) as E.
  { rewrite <- (hash_facts.Split_record EmptyString id params blob key);
      try assumption; try reflexivity;
      try apply base64_facts.EncodeToString_one_field.
    f_equal. unfold prefix.
    rewrite !strings_facts.app_assoc. reflexivity. }
  rewrite VerifyHash_steps.
  rewrite (hash_facts.parseHash_fields _ _ _ _ _ _ _ _ E), Hreg.
  unfold blob. rewrite base64_facts.DecodeString_EncodeToString.
  rewrite Hconf, Hhash.
  unfold key. rewrite base64_facts.DecodeString_EncodeToString.
  rewrite strings_facts.slice_off_tail. reflexivity.
Qed.

End HashVerify.

(** ** [Hash] and [VerifyHash] with the argon2 plug-in registered *)

Section DefaultPlugin.

Variable deriveKey :
  gohash.variant -> list byte -> list byte -> Z -> Z -> Z -> Z -> list byte.
Variable argonThreads : Z.
Variable hmac_sha256 : list byte -> list byte -> list byte.
Variable reg : gmap string HashImplementation.

Hypothesis registered :
  reg !! hash.DefaultAlgo
    = Some (gohash.defaultImplementation deriveKey argonThreads).

(** The default configuration hashes in mode [id], with 4 passes over
    64 MiB, to 32 bytes; the library panics without a thread. *)
Lemma default_Hash (input salt : list byte) :
  HashImplementation.Hash
    (gohash.defaultImplementation deriveKey argonThreads) input salt =
    if argonThreads <? 1 then Panic Argon2ParallelismTooLow
    else Ok ("id:4:65536",
             deriveKey gohash.argon2id input salt 4 65536 argonThreads 32).
Proof.
  unfold HashImplementation.Hash, gohash.defaultImplementation.
  cbn [dyn_methods dyn_value m_Hash gohash.argon2_methods].
  unfold gohash.Hash. cbn [gohash.Mode gohash.default].
  change (String.eqb gohash.argonDefaultMode "i") with false.
  change (String.eqb gohash.argonDefaultMode "id") with true.
  cbn iota. unfold gohash.goargon2.
  cbn [gohash.MemoryPasses gohash.MemorySize gohash.HashSize gohash.default].
  change (gohash.argonDefaultMemoryPasses <? 1) with false. cbn iota.
  rewrite list_byte_of_string_of_list_byte.
  destruct (argonThreads <? 1); reflexivity.
Qed.

(** The parameter string of the default configuration, with length byte
    32, configures the default configuration again. *)
Lemma default_Configure :
  HashImplementation.Configure
    (gohash.defaultImplementation deriveKey argonThreads)
    "id:4:65536" hash.ParameterSeparator 32 =
    Ok (gohash.defaultImplementation deriveKey argonThreads).
Proof.
  unfold HashImplementation.Configure, gohash.defaultImplementation.
  cbn [dyn_methods dyn_value m_Configure gohash.argon2_methods].
  assert (gohash.Configure gohash.default "id:4:65536" hash.ParameterSeparator 32
          = Ok gohash.default) as -> by (vm_compute; reflexivity).
  reflexivity.
Qed.

(** C1. With the default argon2 configuration registered, and the argon2
    library returning the 32 bytes it is asked for, a record that [Hash]
    returns for a password is verified by [VerifyHash] with that password:
    the answer is [true] and there is no error. This holds whatever the
    random source supplied. *)
Theorem VerifyHash_Hash (rnd : hash.RandRead) (input : list byte)
    (record : string) :
  (forall password salt,
     length (deriveKey gohash.argon2id password salt 4 65536 argonThreads 32)
       = 32%nat) ->
  hash.Hash hmac_sha256 reg rnd input = Ok record ->
  hash.VerifyHash hmac_sha256 reg record input = Ok true.
Proof.
  intros Hlen H.
  rewrite (Hash_steps _ _ _ _ _ registered) in H. cbn zeta in H.
  rewrite default_Hash in H.
  destruct (argonThreads <? 1) eqn:Hth; [discriminate|].
  injection H as <-. rewrite Hlen.
  set (salt := hash.GenerateRandomBytes rnd hash.SaltSize).
  set (key := deriveKey gohash.argon2id input salt 4 65536 argonThreads 32).
  erewrite (VerifyHash_record hmac_sha256 reg hash.DefaultAlgo "id:4:65536"
              (byte_of_Z (Z.of_nat 32)) salt _ _ _ input _ key);
    [ | reflexivity | reflexivity | exact registered | | ].
  - unfold hash.hmac_Equal. apply f_equal, bool_decide_eq_true. reflexivity.
  - change (uint32 (byte_to_Z (byte_of_Z (Z.of_nat 32)))) with 32.
    apply default_Configure.
  - rewrite default_Hash, Hth. reflexivity.
Qed.

(** When the random source fails, [GenerateRandomBytes] returns [nil]. *)
Lemma GenerateRandomBytes_failure (rnd : hash.RandRead) (n : Z) :
  hash.rand_err rnd = true \/ Z.of_nat (length (hash.rand_data rnd)) < n ->
  hash.GenerateRandomBytes rnd n = [].
Proof.
  intros H. unfold hash.GenerateRandomBytes.
  destruct (hash.rand_err rnd); [reflexivity|].
  destruct H as [H|H]; [discriminate|].
  rewrite length_take. cbn [orb].
  destruct (Z.eqb_spec (Z.of_nat (Z.to_nat n `min` length (hash.rand_data rnd))) n);
    [lia | reflexivity].
Qed.

(** And when it succeeds, the bytes it read. *)
Lemma GenerateRandomBytes_success (rnd : hash.RandRead) (n : Z) :
  hash.rand_err rnd = false -> Z.of_nat (length (hash.rand_data rnd)) = n ->
  hash.GenerateRandomBytes rnd n = hash.rand_data rnd.
Proof.
  intros He Hn. unfold hash.GenerateRandomBytes. rewrite He. cbn [orb].
  rewrite firstn_all2 by lia. rewrite Hn, Z.eqb_refl. cbn [negb].
  rewrite skipn_all2 by (rewrite length_replicate; lia).
  apply app_nil_r.
Qed.

(** C4 (evaluated where the claim fails). When the random source reports
    an error, or supplies fewer than ten bytes, [Hash] does not fail: it
    derives the key with an empty salt and returns a record whose salt
    field encodes the length byte alone. *)
Theorem Hash_without_salt (rnd : hash.RandRead) (input : list byte) :
  1 <= argonThreads ->
  hash.rand_err rnd = true \/
    Z.of_nat (length (hash.rand_data rnd)) < hash.SaltSize ->
  let derivedKey :=
    deriveKey gohash.argon2id input [] 4 65536 argonThreads 32 in
  let prefix :=
    "$argon2$id:4:65536$" +:+
    base64.EncodeToString [byte_of_Z (Z.of_nat (length derivedKey))] +:+ "$" in
  hash.Hash hmac_sha256 reg rnd input =
    Ok (prefix +:+
        base64.EncodeToString
          (hmac_sha256 (list_byte_of_string prefix) derivedKey)).
Proof.
  intros Hth Hrnd derivedKey prefix.
  rewrite (Hash_steps _ _ _ _ _ registered). cbn zeta.
  rewrite (GenerateRandomBytes_failure _ _ Hrnd), default_Hash.
  destruct (Z.ltb_spec argonThreads 1); [lia|]. reflexivity.
Qed.

End DefaultPlugin.

(** ** The key of the integrity tag in [VerifyHash] *)

(** The key [VerifyHash] passes to [hmacKey], [hash[:len(hash)-len(key)]],
    on a record of exactly five fields: everything before field 4. *)
Lemma slice_is_through_field3 (record f0 id params blob key : string) :
  strings.Split record hash.Separator = [f0; id; params; blob; key] ->
  substring 0 (String.length record - String.length key) record
    = through_field3 record.
Proof.
  intros E. unfold through_field3. rewrite E.
  pose proof (strings_facts.concat_splitFrom "$" record) as Hjoin.
  unfold hash.Separator in E. rewrite strings_facts.Split_one in E.
  rewrite E in Hjoin. cbn [String.concat] in Hjoin.
  assert (record = (f0 +:+ "$" +:+ id +:+ "$" +:+ params +:+ "$" +:+ blob +:+ "$")
                   +:+ key) as Hrec.
  { rewrite <- Hjoin at 1. rewrite !strings_facts.app_assoc. reflexivity. }
  rewrite Hrec. apply strings_facts.slice_off_tail.
Qed.

(** C7 (amended). On a record that splits into exactly five fields,
    [VerifyHash] recomputes the tag as the HMAC whose key is the record
    from its start through the [$] that ends field 3 and whose message is
    the candidate key. *)
Theorem VerifyHash_mac_key (hmac_sha256 : list byte -> list byte -> list byte)
    (reg : gmap string HashImplementation) (record : string)
    (input : list byte) :
  length (strings.Split record hash.Separator) = 5%nat ->
  verifies_under hmac_sha256 reg record input (through_field3 record).
Proof.
  intros Hlen impl params salt hashSize key impl' ps otherKey baseMac
    Hparse Hconf Hhash Hdec.
  rewrite VerifyHash_steps, Hparse, Hconf, Hhash, Hdec.
  apply hash_facts.parseHash_Ok in Hparse
    as (f0 & id & blob & rest & s0 & E & _).
  rewrite E in Hlen. destruct rest; [|discriminate].
  rewrite (slice_is_through_field3 _ _ _ _ _ _ E). reflexivity.
Qed.

(** With more than five fields the key is longer: it is the record
    without its last [len(field 4)] bytes. *)
Lemma VerifyHash_mac_key_general
    (hmac_sha256 : list byte -> list byte -> list byte)
    (reg : gmap string HashImplementation) (record : string)
    (input : list byte) (impl : HashImplementation) (params : string)
    (salt : list byte) (hashSize : Z) (key : string) :
  hash.parseHash reg record = Ok (impl, params, salt, hashSize, key) ->
  verifies_under hmac_sha256 reg record input
    (substring 0 (String.length record - String.length key) record).
Proof.
  intros Hparse impl1 params1 salt1 hashSize1 key1 impl' ps otherKey baseMac
    Hparse1 Hconf Hhash Hdec.
  rewrite VerifyHash_steps, Hparse1, Hconf, Hhash, Hdec.
  rewrite Hparse in Hparse1. injection Hparse1 as _ _ _ _ <-. reflexivity.
Qed.

Lemma sample_registry_argon2 :
  sample.registry !! "argon2"
    = Some (gohash.defaultImplementation sample.deriveKey sample.threads).
Proof. reflexivity. Qed.

(** The steps of [VerifyHash] on two sample records: mode [i], one pass,
    8 KiB, a four-byte key, the salt [salt]; the tag is the HMAC under the
    key [$argon2$i:1:8$BHNhbHQ=$]. The second record has a sixth field. *)
Lemma sample_parse (record f0 params key : string) (rest : list string) :
  strings.Split record hash.Separator
    = f0 :: "argon2"%string :: params :: "BHNhbHQ="%string :: key :: rest ->
  hash.parseHash sample.registry record
    = Ok (gohash.defaultImplementation sample.deriveKey sample.threads,
          params, list_byte_of_string "salt", 4, key).
Proof.
  intros E.
  rewrite (hash_facts.parseHash_fields sample.registry _ _ _ _ _ _ _ E).
  rewrite sample_registry_argon2.
  assert (base64.DecodeString "BHNhbHQ="
          = Ok (byte_of_Z 4 :: list_byte_of_string "salt")) as ->
    by (vm_compute; reflexivity).
  reflexivity.
Qed.

Lemma sample_Configure_i :
  HashImplementation.Configure
    (gohash.defaultImplementation sample.deriveKey sample.threads)
    "i:1:8" hash.ParameterSeparator (uint32 4) = Ok sample.argon2_i.
Proof.
  unfold HashImplementation.Configure, gohash.defaultImplementation.
  cbn [dyn_methods dyn_value m_Configure gohash.argon2_methods].
  assert (gohash.Configure gohash.default "i:1:8" hash.ParameterSeparator
            (uint32 4)
          = Ok {| gohash.MemoryPasses := 1; gohash.MemorySize := 8;
                  gohash.Mode := "i"; gohash.HashSize := 4 |}) as ->
    by (vm_compute; reflexivity).
  reflexivity.
Qed.

Lemma sample_Hash_i :
  HashImplementation.Hash sample.argon2_i sample.password (list_byte_of_string "salt")
    = Ok ("i:1:8"%string, list_byte_of_string "corr").
Proof. vm_compute. reflexivity. Qed.

Lemma sample_tag :
  base64.DecodeString "FyRhcmdvbjIkaToxOjgkQkhOaGJIUT0kY29ycg=="
    = Ok (sample.hmac (list_byte_of_string "$argon2$i:1:8$BHNhbHQ=$")
            (list_byte_of_string "corr")).
Proof. vm_compute. reflexivity. Qed.

(** C7 (as stated, refuted). A record of six fields, whose field 4 is the
    encoded HMAC under the key that ends with field 3's [$]: were that the
    key [VerifyHash] uses, the record would verify; it does not. *)
Lemma VerifyHash_mac_key_counterexample :
  (5 <= length (strings.Split
     "$argon2$i:1:8$BHNhbHQ=$FyRhcmdvbjIkaToxOjgkQkhOaGJIUT0kY29ycg==$junk"
     hash.Separator))%nat /\
  hash.VerifyHash sample.hmac sample.registry
    "$argon2$i:1:8$BHNhbHQ=$FyRhcmdvbjIkaToxOjgkQkhOaGJIUT0kY29ycg==$junk"
    sample.password = Ok false /\
  ~ verifies_under sample.hmac sample.registry
      "$argon2$i:1:8$BHNhbHQ=$FyRhcmdvbjIkaToxOjgkQkhOaGJIUT0kY29ycg==$junk"
      sample.password
      (through_field3
         "$argon2$i:1:8$BHNhbHQ=$FyRhcmdvbjIkaToxOjgkQkhOaGJIUT0kY29ycg==$junk").
Proof.
  split; [vm_compute; lia|]. split; [vm_compute; reflexivity|].
  intros H.
  assert (strings.Split
            "$argon2$i:1:8$BHNhbHQ=$FyRhcmdvbjIkaToxOjgkQkhOaGJIUT0kY29ycg==$junk"
            hash.Separator
          = [EmptyString; "argon2"; "i:1:8"; "BHNhbHQ=";
             "FyRhcmdvbjIkaToxOjgkQkhOaGJIUT0kY29ycg=="; "junk"]%string) as E
    by (vm_compute; reflexivity).
  specialize (H _ _ _ _ _ _ _ _ _ (sample_parse _ _ _ _ _ E)
                sample_Configure_i sample_Hash_i sample_tag).
  vm_compute in H. discriminate H.
Qed.

(** The same record without the sixth field verifies, under that key. *)
Lemma VerifyHash_mac_key_witness :
  hash.VerifyHash sample.hmac sample.registry
    "$argon2$i:1:8$BHNhbHQ=$FyRhcmdvbjIkaToxOjgkQkhOaGJIUT0kY29ycg=="
    sample.password
  = Ok (hash.hmac_Equal
          (sample.hmac (list_byte_of_string "$argon2$i:1:8$BHNhbHQ=$")
             (list_byte_of_string "corr"))
          (sample.hmac (list_byte_of_string "$argon2$i:1:8$BHNhbHQ=$")
             (list_byte_of_string "corr"))).
Proof.
  assert (strings.Split
            "$argon2$i:1:8$BHNhbHQ=$FyRhcmdvbjIkaToxOjgkQkhOaGJIUT0kY29ycg=="
            hash.Separator
          = [EmptyString; "argon2"; "i:1:8"; "BHNhbHQ=";
             "FyRhcmdvbjIkaToxOjgkQkhOaGJIUT0kY29ycg=="]%string) as E
    by (vm_compute; reflexivity).
  assert (through_field3
            "$argon2$i:1:8$BHNhbHQ=$FyRhcmdvbjIkaToxOjgkQkhOaGJIUT0kY29ycg=="
          = "$argon2$i:1:8$BHNhbHQ=$"%string) as Hkey
    by (vm_compute; reflexivity).
  rewrite <- Hkey at 2.
  apply (VerifyHash_mac_key sample.hmac sample.registry
    "$argon2$i:1:8$BHNhbHQ=$FyRhcmdvbjIkaToxOjgkQkhOaGJIUT0kY29ycg=="
    sample.password (f_equal length E) _ _ _ _ _ _ _ _ _
    (sample_parse _ _ _ _ _ E) sample_Configure_i sample_Hash_i sample_tag).
Defined.

(** ** Mismatch and failure in [VerifyHash] *)



(** ** Instances with the sample primitives *)

Lemma sample_deriveKey_length (v : gohash.variant) (password salt : list byte)
    (time memory threads keyLen : Z) :
  length (sample.deriveKey v password salt time memory threads keyLen)
    = Z.to_nat keyLen.
Proof.
  unfold sample.deriveKey.
  rewrite length_take, !length_app, length_replicate. lia.
Qed.

Lemma VerifyHash_Hash_witness :
  hash.VerifyHash sample.hmac sample.registry
    "$argon2$id:4:65536$IDAxMjM0NTY3ODk=$JCRhcmdvbjIkaWQ6NDo2NTUzNiRJREF4TWpNME5UWTNPRGs9JGNvcnJlY3QtcGFzc3dvcmQwMTIzNDU2Nzg5AAAAAAAA"
    sample.password = Ok true.
Proof.
  apply (VerifyHash_Hash sample.deriveKey sample.threads sample.hmac
           sample.registry sample_registry_argon2 sample.random).
  - intros password salt. apply sample_deriveKey_length.
  - vm_compute. reflexivity.
Defined.

Lemma Hash_without_salt_witness :
  hash.Hash sample.hmac sample.registry sample.no_random sample.password
    = Ok "$argon2$id:4:65536$IA==$GCRhcmdvbjIkaWQ6NDo2NTUzNiRJQT09JGNvcnJlY3QtcGFzc3dvcmQAAAAAAAAAAAAAAAAAAAAA"%string.
Proof.
  pose proof (Hash_without_salt sample.deriveKey sample.threads sample.hmac
                sample.registry sample_registry_argon2 sample.no_random
                sample.password) as H.
  cbn zeta in H. rewrite H.
  - vm_compute. reflexivity.
  - vm_compute. discriminate.
  - left. reflexivity.
Defined.

Lemma Hash_record_witness :
  exists paramString derivedKey,
    "$argon2$id:4:65536$IDAxMjM0NTY3ODk=$JCRhcmdvbjIkaWQ6NDo2NTUzNiRJREF4TWpNME5UWTNPRGs9JGNvcnJlY3QtcGFzc3dvcmQwMTIzNDU2Nzg5AAAAAAAA"%string
    = ("$argon2$" +:+ paramString +:+ "$" +:+
       base64.EncodeToString
         (byte_of_Z (Z.of_nat (length derivedKey))
          :: list_byte_of_string "0123456789") +:+ "$") +:+
      base64.EncodeToString
        (sample.hmac
           (list_byte_of_string
              ("$argon2$" +:+ paramString +:+ "$" +:+
               base64.EncodeToString
                 (byte_of_Z (Z.of_nat (length derivedKey))
                  :: list_byte_of_string "0123456789") +:+ "$"))
           derivedKey).
Proof.
  destruct (Hash_record sample.hmac sample.registry sample.random
              sample.password
              "$argon2$id:4:65536$IDAxMjM0NTY3ODk=$JCRhcmdvbjIkaWQ6NDo2NTUzNiRJREF4TWpNME5UWTNPRGs9JGNvcnJlY3QtcGFzc3dvcmQwMTIzNDU2Nzg5AAAAAAAA")
    as (hasher & paramString & derivedKey & _ & _ & Hrec).
  - vm_compute. reflexivity.
  - exists paramString, derivedKey. exact Hrec.
Defined.

(** * Further properties *)

(** ** base64: no panic, length, alphabet *)

Module base64_more.
Import base64.

Lemma decodeFrom_no_panic (src : string) :
  forall si dbuf p, decodeFrom src si dbuf <> Panic p.
Proof.
  induction src as [|c rest IH]; intros si dbuf p.
  - cbn. destruct dbuf; discriminate.
  - cbn [decodeFrom].
    destruct (decodeMap c) as [out|].
    + destruct (length (dbuf ++ [out]) =? 4)%nat; [|apply IH].
      specialize (IH (si + 1) [] p).
      destruct (decodeFrom rest (si + 1) []); cbn; congruence.
    + destruct (isNewline c); [apply IH|].
      destruct (negb (Ascii.eqb c padChar)); [discriminate|].
      destruct (length dbuf) as [|[|[|n]]]; try discriminate.
      * destruct (skipNewlines rest (si + 1)) as [rest1 si1].
        destruct rest1 as [|c1 rest2]; [discriminate|].
        destruct (negb (Ascii.eqb c1 padChar)); [discriminate|].
        destruct (skipNewlines rest2 (si1 + 1)) as [rest3 si3].
        destruct rest3; discriminate.
      * destruct (skipNewlines rest (si + 1)) as [rest3 si3].
        destruct rest3; discriminate.
Qed.

Lemma DecodeString_no_panic (s : string) (p : panic) :
  DecodeString s <> Panic p.
Proof. apply decodeFrom_no_panic. Qed.

(** Encoding is injective: it can be decoded. *)
Lemma EncodeToString_inj (src src' : list byte) :
  EncodeToString src = EncodeToString src' -> src = src'.
Proof.
  intros H.
  pose proof (base64_facts.DecodeString_EncodeToString src) as H1.
  rewrite H, base64_facts.DecodeString_EncodeToString in H1. congruence.
Qed.

(** Four characters for every three bytes, the last block padded. *)
Lemma EncodeToString_length (src : list byte) :
  Z.of_nat (String.length (EncodeToString src))
    = 4 * ((Z.of_nat (length src) + 2) / 3).
Proof.
  induction src as [|b0|b0 b1|b0 b1 b2 rest IH] using base64_facts.blocks_of_three.
  - reflexivity.
  - reflexivity.
  - reflexivity.
  - cbn [EncodeToString String.length length].
    rewrite !Nat2Z.inj_succ, IH. Z.div_mod_to_equations. lia.
Qed.

Lemma encode_in_alphabet (v : Z) :
  0 <= v < 64 -> is_Some (decodeMap (encode v)).
Proof. intros H. rewrite base64_facts.decodeMap_encode by exact H. eauto. Qed.

Lemma EncodeToString_text (src : list byte) :
  base64_text (EncodeToString src) = true.
Proof.
  assert (forall val shift,
            bool_decide (is_Some (decodeMap (sextet val shift))) = true) as Hs.
  { intros val shift. apply bool_decide_eq_true.
    rewrite base64_facts.sextet_decode. eauto. }
  induction src as [|b0|b0 b1|b0 b1 b2 rest IH] using base64_facts.blocks_of_three;
    cbn [EncodeToString base64_text]; rewrite ?Hs, ?IH; reflexivity.
Qed.

End base64_more.

(** ** strings.Split and strconv: field counts, decimal numbers *)

Module strings_more.
Import strings.

(** Splitting at a one-byte separator gives one field more than there are
    separators. *)
Lemma length_splitFrom (c : ascii) (s : string) :
  length (splitFrom (String c EmptyString) s 0) = S (count_char c s).
Proof.
  induction s as [|a rest IH]; [reflexivity|].
  rewrite strings_facts.splitFrom_step. cbn [count_char].
  destruct (Ascii.eqb a c).
  - cbn [length]. rewrite IH. reflexivity.
  - pose proof (strings_facts.splitFrom_nonempty c rest) as Hne.
    destruct (splitFrom (String c EmptyString) rest 0) as [|h t];
      [congruence|]. cbn [cons_head]. cbn [length] in *. lia.
Qed.

Lemma count_char_app (c : ascii) (a b : string) :
  count_char c (a +:+ b) = (count_char c a + count_char c b)%nat.
Proof.
  induction a as [|x a IH]; [reflexivity|].
  rewrite strings_facts.app_cons. cbn [count_char]. rewrite IH. lia.
Qed.

End strings_more.

Module strconv_more.
Import strconv.

Lemma parseUintLoop_ge (s : string) :
  forall n maxVal r, 0 <= n -> parseUintLoop s n maxVal = inr r -> n <= r.
Proof.
  induction s as [|c rest IH]; intros n maxVal r Hn H.
  - cbn in H. injection H as <-. lia.
  - cbn [parseUintLoop] in H.
    destruct ((48 <=? char_to_Z c) && (char_to_Z c <=? 57)) eqn:Hd;
      [|discriminate].
    apply andb_prop in Hd as [Hd1%Z.leb_le Hd2%Z.leb_le].
    destruct (n >=? maxUint64 / 10 + 1); [discriminate|].
    destruct (((n * 10 + (char_to_Z c - 48)) mod 2 ^ 64 <? n * 10)
              || ((n * 10 + (char_to_Z c - 48)) mod 2 ^ 64 >? maxVal)) eqn:Ho;
      [discriminate|].
    apply orb_false_elim in Ho as [Ho%Z.ltb_ge _].
    apply IH in H; lia.
Qed.

Lemma parseUintLoop_le (s : string) :
  forall n maxVal r, n <= maxVal -> parseUintLoop s n maxVal = inr r ->
    r <= maxVal.
Proof.
  induction s as [|c rest IH]; intros n maxVal r Hn H.
  - cbn in H. injection H as <-. lia.
  - cbn [parseUintLoop] in H.
    destruct ((48 <=? char_to_Z c) && (char_to_Z c <=? 57)); [|discriminate].
    destruct (n >=? maxUint64 / 10 + 1); [discriminate|].
    destruct (((n * 10 + (char_to_Z c - 48)) mod 2 ^ 64 <? n * 10)
              || ((n * 10 + (char_to_Z c - 48)) mod 2 ^ 64 >? maxVal)) eqn:Ho;
      [discriminate|].
    apply orb_false_elim in Ho as [_ Ho].
    apply IH in H; [exact H|]. lia.
Qed.

(** [ParseInt] returns an integer of the width asked for. *)
Lemma ParseInt_range (s : string) (bitSize n : Z) :
  1 <= bitSize ->
  ParseInt s bitSize = inr n ->
  - 2 ^ (bitSize - 1) <= n <= 2 ^ (bitSize - 1) - 1.
Proof.
  intros Hb H. unfold ParseInt in H.
  destruct s as [|s0 rest]; [discriminate|].
  assert (0 < 2 ^ (bitSize - 1)) as Hpow by (apply Z.pow_pos_nonneg; lia).
  assert (forall t neg,
    match ParseUint t bitSize with
    | inl e => inl e
    | inr un =>
        if negb neg && (un >=? 2 ^ (bitSize - 1)) then inl ErrRange
        else if neg && (un >? 2 ^ (bitSize - 1)) then inl ErrRange
        else inr (if neg then - un else un)
    end = inr n -> - 2 ^ (bitSize - 1) <= n <= 2 ^ (bitSize - 1) - 1) as Hcore.
  { intros t neg Ht.
    destruct (ParseUint t bitSize) as [e|un] eqn:Hu; [discriminate|].
    assert (0 <= un) as Hun.
    { unfold ParseUint in Hu. destruct t; [discriminate|].
      apply parseUintLoop_ge in Hu; lia. }
    destruct neg; cbn [negb andb] in Ht.
    - destruct (Z.gtb_spec un (2 ^ (bitSize - 1))); [discriminate|].
      injection Ht as <-. lia.
    - destruct (Z.geb_spec un (2 ^ (bitSize - 1))); [discriminate|].
      injection Ht as <-. lia. }
  destruct (Ascii.eqb s0 "+"); [exact (Hcore rest false H)|].
  destruct (Ascii.eqb s0 "-");
    [exact (Hcore rest true H) | exact (Hcore (String s0 rest) false H)].
Qed.

(** *** Decimal numbers: [ParseInt] reads what [FormatUint] writes *)

Lemma of_uint_acc_value (d : Decimal.uint) :
  forall acc, Z.pos (Pos.of_uint_acc d acc) = uint_value d (Z.pos acc).
Proof.
  induction d; intros acc; cbn [Pos.of_uint_acc uint_value];
    try reflexivity; rewrite IHd; f_equal; lia.
Qed.

Lemma of_uint_value (d : Decimal.uint) :
  Z.of_N (Pos.of_uint d) = uint_value d 0.
Proof.
  induction d; cbn [Pos.of_uint uint_value]; try reflexivity;
    try (rewrite IHd; reflexivity);
    cbn [Z.of_N]; rewrite of_uint_acc_value; reflexivity.
Qed.

Lemma uint_value_ge (d : Decimal.uint) :
  forall acc, 0 <= acc -> acc <= uint_value d acc.
Proof.
  induction d; intros acc Hacc; cbn [uint_value]; [lia|..];
    (etransitivity; [|apply IHd; lia]); lia.
Qed.

Lemma parse_digits (d : Decimal.uint) :
  forall acc maxVal,
    0 <= acc -> uint_value d acc <= maxVal -> maxVal < 2 ^ 64 ->
    parseUintLoop (NilEmpty.string_of_uint d) acc maxVal
      = inr (uint_value d acc).
Proof.
  assert (forall k acc maxVal, 0 <= k <= 9 -> 0 <= acc ->
            acc * 10 + k <= maxVal -> maxVal < 2 ^ 64 ->
            (acc >=? maxUint64 / 10 + 1) = false /\
            ((acc * 10 + k) mod 2 ^ 64 <? acc * 10)
              || ((acc * 10 + k) mod 2 ^ 64 >? maxVal) = false /\
            (acc * 10 + k) mod 2 ^ 64 = acc * 10 + k) as Hstep.
  { intros k acc maxVal Hk Hacc Hle Hmax.
    assert ((acc * 10 + k) mod 2 ^ 64 = acc * 10 + k) as Hmod
      by (apply Z.mod_small; lia).
    rewrite Hmod. unfold maxUint64.
    change (2 ^ 64) with 18446744073709551616 in *.
    change ((18446744073709551616 - 1) / 10 + 1) with 1844674407370955162.
    repeat split; [|apply orb_false_intro]; lia. }
  induction d; intros acc maxVal Hacc Hle Hmax;
    cbn [NilEmpty.string_of_uint uint_value] in *; [reflexivity|..];
    cbn [parseUintLoop];
    match goal with
    | |- context [uint_value d (acc * 10 + ?k)] =>
        pose proof (uint_value_ge d (acc * 10 + k) ltac:(lia)) as Hge;
        destruct (Hstep k acc maxVal ltac:(lia) Hacc ltac:(lia) Hmax)
          as (H1 & H2 & H3);
        change (char_to_Z _) with (48 + k);
        replace (48 + k - 48) with k by lia;
        change ((48 <=? 48 + k) && (48 + k <=? 57)) with true; cbn iota;
        rewrite H1, H2, H3; apply IHd; [lia | exact Hle | exact Hmax]
    end.
Qed.

Lemma to_uint_nonnil (n : N) : N.to_uint n <> Decimal.Nil.
Proof.
  destruct n as [|p]; [discriminate|]. apply DecimalPos.Unsigned.to_uint_nonnil.
Qed.

Lemma FormatUint_digits (n : Z) :
  FormatUint n = NilEmpty.string_of_uint (N.to_uint (Z.to_N n)).
Proof.
  unfold FormatUint, NilZero.string_of_uint.
  pose proof (to_uint_nonnil (Z.to_N n)).
  destruct (N.to_uint (Z.to_N n)); congruence.
Qed.

Lemma FormatUint_value (n : Z) :
  0 <= n -> uint_value (N.to_uint (Z.to_N n)) 0 = n.
Proof.
  intros Hn. rewrite <- of_uint_value.
  change (Pos.of_uint ?d) with (N.of_uint d).
  rewrite DecimalN.Unsigned.of_to. lia.
Qed.

(** A string of digits does not start with a sign, is not empty when the
    number is not [Nil], and holds no other byte than digits. *)
Lemma digits_head (d : Decimal.uint) :
  d <> Decimal.Nil ->
  exists c rest, NilEmpty.string_of_uint d = String c rest /\
    Ascii.eqb c "+" = false /\ Ascii.eqb c "-" = false.
Proof.
  destruct d; [congruence|..]; intros _; eexists _, _;
    (split; [reflexivity|split; reflexivity]).
Qed.

Lemma digits_free (c : ascii) (d : Decimal.uint) :
  (char_to_Z c < 48 \/ 57 < char_to_Z c) ->
  contains c (NilEmpty.string_of_uint d) = false.
Proof.
  intros Hc. induction d; cbn [NilEmpty.string_of_uint contains];
    [reflexivity|..]; rewrite IHd, orb_false_r; apply Ascii.eqb_neq;
    intros <-; destruct Hc as [Hc|Hc]; vm_compute in Hc; discriminate Hc.
Qed.

Lemma ParseInt_FormatUint (n bitSize : Z) :
  1 <= bitSize <= 64 -> 0 <= n < 2 ^ (bitSize - 1) ->
  ParseInt (FormatUint n) bitSize = inr n.
Proof.
  intros Hb Hn. rewrite FormatUint_digits.
  destruct (digits_head _ (to_uint_nonnil (Z.to_N n)))
    as (c & rest & E & Hplus & Hminus).
  assert (2 ^ (bitSize - 1) < 2 ^ bitSize) as Hlt
    by (apply Z.pow_lt_mono_r; lia).
  assert (2 ^ bitSize <= 2 ^ 64) as Hle by (apply Z.pow_le_mono_r; lia).
  assert (ParseUint (NilEmpty.string_of_uint (N.to_uint (Z.to_N n))) bitSize
          = inr n) as Hu.
  { unfold ParseUint. rewrite E, <- E.
    rewrite parse_digits; rewrite ?FormatUint_value; try lia. reflexivity. }
  unfold ParseInt. rewrite E, Hplus, Hminus, <- E, Hu. cbn [negb andb].
  destruct (Z.geb_spec n (2 ^ (bitSize - 1))); [lia|reflexivity].
Qed.

End strconv_more.

(** ** The argon2 plug-in, further *)

Module gohash_more.
Import gohash.

(** X15. [inStrArray] decides membership. *)
Theorem inStrArray_spec (val : string) (array : list string) :
  inStrArray val array = true <-> In val array.
Proof.
  induction array as [|item rest IH]; cbn [inStrArray In].
  - split; [discriminate | tauto].
  - destruct (String.eqb_spec item val) as [->|Hne].
    + split; auto.
    + rewrite IH. split; [auto | intros [H|H]; [congruence | exact H]].
Qed.

Lemma three_fields {A : Type} (pars : list A) :
  (length pars <? argonNumParameters)%nat = false ->
  exists mode p1 p2 rest, pars = mode :: p1 :: p2 :: rest.
Proof.
  intros H%Nat.ltb_ge. unfold argonNumParameters in H.
  destruct pars as [|mode [|p1 [|p2 rest]]]; cbn in H; try lia.
  by exists mode, p1, p2, rest.
Qed.

(** [uint32] of a signed integer of at most 32 bits is zero only for
    zero. *)
Lemma uint32_zero (z : Z) : - 2 ^ 31 <= z < 2 ^ 31 -> uint32 z = 0 -> z = 0.
Proof.
  intros Hz H. unfold uint32 in H.
  change (2 ^ 31) with 2147483648 in Hz. change (2 ^ 32) with 4294967296 in H.
  Z.div_mod_to_equations. lia.
Qed.

(** X16. What a successful [Configure] returns: the mode is [i] or [id]; the
    hash size is [uint32(hashSize)] and not zero; the pass count was read
    as an [int8] and the memory size as an [int32], neither is zero, and
    both were converted to [uint32]. The receiver plays no part. *)
Theorem Configure_result (uc : argon2) (parameters separator : string)
    (hashSize : Z) (nc : argon2) :
  Configure uc parameters separator hashSize = Ok nc ->
  exists mode p1 p2 rest passes memory,
    strings.Split parameters separator = mode :: p1 :: p2 :: rest /\
    strconv.ParseInt p1 8 = inr passes /\
    strconv.ParseInt p2 32 = inr memory /\
    (mode = "i" \/ mode = "id") /\
    - 128 <= passes <= 127 /\ passes <> 0 /\
    - 2 ^ 31 <= memory <= 2 ^ 31 - 1 /\ memory <> 0 /\
    uint32 hashSize <> 0 /\
    nc = {| MemoryPasses := uint32 passes; MemorySize := uint32 memory;
            Mode := mode; HashSize := uint32 hashSize |}.
Proof.
  intros H.
  destruct (length (strings.Split parameters separator) <? argonNumParameters)%nat
    eqn:El.
  { unfold Configure in H. rewrite El in H. discriminate. }
  destruct (three_fields _ El) as (mode & p1 & p2 & rest & E).
  rewrite (gohash_facts.Configure_fields _ _ _ _ _ _ _ _ E) in H.
  destruct (strconv.ParseInt p1 8) as [e|passes] eqn:E1; [discriminate|].
  destruct (strconv.ParseInt p2 32) as [e|memory] eqn:E2; [discriminate|].
  apply strconv_more.ParseInt_range in E1 as R1; [|lia].
  apply strconv_more.ParseInt_range in E2 as R2; [|lia].
  change (2 ^ (8 - 1)) with 128 in R1. change (32 - 1) with 31 in R2.
  pose proof (gohash_facts.uint32_range hashSize) as Rh.
  pose proof (gohash_facts.uint32_range passes) as Rp.
  pose proof (gohash_facts.uint32_range memory) as Rm.
  rewrite gohash_facts.configureArgon_spec in H by lia.
  case_bool_decide as Hd; [|discriminate].
  destruct Hd as (Hmode & Hh & Hp & Hm). injection H as <-.
  exists mode, p1, p2, rest, passes, memory.
  repeat split; try assumption; try lia.
  - intros ->. apply Hp. reflexivity.
  - intros ->. apply Hm. reflexivity.
Qed.

Lemma Configure_result_witness :
  exists nc, Configure default "i:2:1024:extra" ":" 16 = Ok nc /\
    (Mode nc = "i" \/ Mode nc = "id") /\ HashSize nc = 16.
Proof.
  eexists. split; [vm_compute; reflexivity|].
  destruct (Configure_result default "i:2:1024:extra" ":" 16 _ eq_refl)
    as (mode & p1 & p2 & rest & passes & memory & _ & _ & _ & Hmode & _).
  split; [left|]; reflexivity.
Defined.

(** On the configuration the receiver points to, [Configure] does not look
    at it: all four fields of the copy are overwritten. *)
Lemma Configure_receiver_irrelevant (uc uc' : argon2)
    (parameters separator : string) (hashSize : Z) :
  Configure uc parameters separator hashSize
    = Configure uc' parameters separator hashSize.
Proof.
  destruct (length (strings.Split parameters separator) <? argonNumParameters)%nat
    eqn:El.
  { unfold Configure. rewrite El. reflexivity. }
  destruct (three_fields _ El) as (mode & p1 & p2 & rest & E).
  rewrite !(gohash_facts.Configure_fields _ _ _ _ _ _ _ _ E).
  destruct (strconv.ParseInt p1 8); [reflexivity|].
  destruct (strconv.ParseInt p2 32); reflexivity.
Qed.

(** Once the receiver is read, [Configure] does not panic, and bad
    parameters is its only error. *)
Lemma Configure_only_bad_parameters (uc : argon2)
    (parameters separator : string) (hashSize : Z) :
  (forall p, Configure uc parameters separator hashSize <> Panic p) /\
  (forall e, Configure uc parameters separator hashSize = Err e ->
     e = errBadParameters).
Proof.
  destruct (length (strings.Split parameters separator) <? argonNumParameters)%nat
    eqn:El.
  { unfold Configure. rewrite El. split; [discriminate | congruence]. }
  destruct (three_fields _ El) as (mode & p1 & p2 & rest & E).
  rewrite !(gohash_facts.Configure_fields _ _ _ _ _ _ _ _ E).
  destruct (strconv.ParseInt p1 8); [split; [discriminate | congruence]|].
  destruct (strconv.ParseInt p2 32); [split; [discriminate | congruence]|].
  unfold configureArgon.
  destruct (negb (inStrArray mode argonModi) || (uint32 hashSize <=? 0)
            || (uint32 z <=? 0) || (uint32 z0 <=? 0));
    split; discriminate || congruence.
Qed.

End gohash_more.

Module gohash_hash.
Import gohash.

Section KeyDerivation.

Variable deriveKey :
  variant -> list byte -> list byte -> Z -> Z -> Z -> Z -> list byte.
Variable argonThreads : Z.

(** [Hash], case by case: an unknown mode is an error and no key is
    derived; with a known mode the library is called, which panics on a
    pass count or a thread count below one. *)
Lemma Hash_cases (uc : argon2) (password : string) (salt : list byte) :
  Hash deriveKey argonThreads uc password salt =
    if bool_decide (Mode uc = "i" \/ Mode uc = "id") then
      if MemoryPasses uc <? 1 then Panic Argon2RoundsTooSmall
      else if argonThreads <? 1 then Panic Argon2ParallelismTooLow
      else Ok (encodedString uc,
               deriveKey (variant_of_mode (Mode uc)) (list_byte_of_string password)
                 salt (MemoryPasses uc) (MemorySize uc) argonThreads (HashSize uc))
    else Err errUnknownHashMod.
Proof.
  unfold Hash, goargon2, variant_of_mode.
  destruct (String.eqb_spec (Mode uc) "i") as [Hi|Hi].
  - rewrite bool_decide_eq_true_2 by auto.
    destruct (MemoryPasses uc <? 1); [reflexivity|].
    destruct (argonThreads <? 1); reflexivity.
  - destruct (String.eqb_spec (Mode uc) "id") as [Hid|Hid].
    + rewrite bool_decide_eq_true_2 by auto.
      destruct (MemoryPasses uc <? 1); [reflexivity|].
      destruct (argonThreads <? 1); reflexivity.
    + rewrite bool_decide_eq_false_2 by tauto. reflexivity.
Qed.

(** X19. The only error of [Hash] is the unknown mode, and it occurs exactly
    when the mode is neither [i] nor [id]. *)
Theorem Hash_error_iff (uc : argon2) (password : string) (salt : list byte)
    (e : error) :
  Hash deriveKey argonThreads uc password salt = Err e <->
  e = errUnknownHashMod /\ Mode uc <> "i" /\ Mode uc <> "id".
Proof.
  rewrite Hash_cases. case_bool_decide as Hm.
  - split.
    + destruct (MemoryPasses uc <? 1); [discriminate|].
      destruct (argonThreads <? 1); discriminate.
    + intros (_ & Hi & Hid). tauto.
  - split.
    + intros [= <-]. split; [reflexivity|]. split; intros ?; apply Hm; auto.
    + intros (-> & _). reflexivity.
Qed.

(** X20. A configuration that [Configure] returned hashes without error: with
    at least one thread [Hash] returns the parameter string and the key of
    the configured length request; the unknown-mode check cannot fire and
    the library's check of the pass count cannot either. *)
Theorem Hash_after_Configure (uc nc : argon2) (parameters separator : string)
    (hashSize : Z) (password : string) (salt : list byte) :
  Configure uc parameters separator hashSize = Ok nc ->
  Hash deriveKey argonThreads nc password salt =
    if argonThreads <? 1 then Panic Argon2ParallelismTooLow
    else Ok (encodedString nc,
             deriveKey (variant_of_mode (Mode nc)) (list_byte_of_string password)
               salt (MemoryPasses nc) (MemorySize nc) argonThreads (HashSize nc)).
Proof.
  intros H.
  apply gohash_more.Configure_result in H
    as (mode & p1 & p2 & rest & passes & memory & _ & _ & _ & Hmode & Rp & Hp
        & _ & _ & _ & ->).
  rewrite Hash_cases. cbn [Mode MemoryPasses MemorySize HashSize].
  rewrite bool_decide_eq_true_2 by exact Hmode.
  assert (1 <= uint32 passes) as Hpos.
  { pose proof (gohash_facts.uint32_range passes) as R.
    assert (uint32 passes <> 0); [|lia].
    intros Hz. apply Hp. apply gohash_more.uint32_zero; [|exact Hz].
    change (2 ^ 31) with 2147483648. lia. }
  destruct (Z.ltb_spec (uint32 passes) 1); [lia|]. reflexivity.
Qed.

End KeyDerivation.

Lemma Hash_after_Configure_witness :
  Hash sample.deriveKey sample.threads
    {| MemoryPasses := 2; MemorySize := 1024; Mode := "i"; HashSize := 16 |}
    "pw" (list_byte_of_string "salt")
  = Ok ("i:2:1024"%string, list_byte_of_string "pwsalt" ++ replicate 10 x00).
Proof.
  rewrite (Hash_after_Configure sample.deriveKey sample.threads default
             {| MemoryPasses := 2; MemorySize := 1024; Mode := "i";
                HashSize := 16 |}
             "i:2:1024" ":" 16 "pw" (list_byte_of_string "salt"));
    vm_compute; reflexivity.
Defined.

(** *** The parameter string: [Configure] reads what [encodedString] writes *)

Lemma FormatUint_free (c : ascii) (n : Z) :
  (char_to_Z c < 48 \/ 57 < char_to_Z c) ->
  contains c (strconv.FormatUint n) = false.
Proof.
  intros Hc. rewrite strconv_more.FormatUint_digits.
  apply strconv_more.digits_free, Hc.
Qed.

Lemma Split_encodedString (c : argon2) :
  Mode c = "i" \/ Mode c = "id" ->
  strings.Split (encodedString c) ":" =
    [Mode c; strconv.FormatUint (MemoryPasses c);
     strconv.FormatUint (MemorySize c)].
Proof.
  intros Hmode. unfold encodedString.
  assert (contains ":" (Mode c) = false) as Hm
    by (destruct Hmode as [-> | ->]; reflexivity).
  assert (forall n, contains ":" (strconv.FormatUint n) = false) as Hd
    by (intros n; apply FormatUint_free; right; vm_compute; reflexivity).
  rewrite strings_facts.Split_one.
  do 2 (rewrite ?strings_facts.app_cons, ?strings_facts.app_empty_l;
        rewrite strings_facts.splitFrom_field by auto).
  rewrite strings_facts.splitFrom_free by auto. reflexivity.
Qed.

(** X21. A configuration with a known mode, 1 to 127 passes, a memory size
    below 2^31 and a non-zero hash size is configured again by its own
    parameter string and hash size, from any receiver. *)
Theorem Configure_encodedString (uc c : argon2) :
  Mode c = "i" \/ Mode c = "id" ->
  1 <= MemoryPasses c <= 127 ->
  1 <= MemorySize c < 2 ^ 31 ->
  1 <= HashSize c < 2 ^ 32 ->
  Configure uc (encodedString c) ":" (HashSize c) = Ok c.
Proof.
  intros Hmode Hp Hm Hh.
  rewrite (gohash_facts.Configure_fields _ _ _ _ _ _ _ _
             (Split_encodedString c Hmode)).
  rewrite !strconv_more.ParseInt_FormatUint by (cbn; lia).
  change (2 ^ 31) with 2147483648 in Hm. change (2 ^ 32) with 4294967296 in Hh.
  assert (uint32 (HashSize c) = HashSize c) as ->
    by (apply Z.mod_small; change (2 ^ 32) with 4294967296; lia).
  assert (uint32 (MemoryPasses c) = MemoryPasses c) as ->
    by (apply Z.mod_small; change (2 ^ 32) with 4294967296; lia).
  assert (uint32 (MemorySize c) = MemorySize c) as ->
    by (apply Z.mod_small; change (2 ^ 32) with 4294967296; lia).
  rewrite gohash_facts.configureArgon_spec by lia.
  rewrite bool_decide_eq_true_2 by (repeat split; [exact Hmode | lia..]).
  destruct c; reflexivity.
Qed.

Lemma Configure_encodedString_witness :
  Configure default (encodedString default) ":" (HashSize default) = Ok default.
Proof.
  apply Configure_encodedString; [right; reflexivity | vm_compute; split; first [reflexivity | intros; discriminate]..].
Defined.

End gohash_hash.

Module gohash_limits.
Import gohash.

Lemma parse_digits_sound (d : Decimal.uint) :
  forall acc maxVal r, 0 <= acc ->
    strconv.parseUintLoop (NilEmpty.string_of_uint d) acc maxVal = inr r ->
    r = uint_value d acc.
Proof.
  induction d; intros acc maxVal r Hacc H;
    cbn [NilEmpty.string_of_uint uint_value] in *;
    [injection H as <-; reflexivity|..];
    cbn [strconv.parseUintLoop] in H;
    match goal with
    | |- r = uint_value d (acc * 10 + ?k) =>
        change (char_to_Z _) with (48 + k) in H;
        replace (48 + k - 48) with k in H by lia;
        change ((48 <=? 48 + k) && (48 + k <=? 57)) with true in H;
        cbn iota in H;
        destruct (acc >=? strconv.maxUint64 / 10 + 1); [discriminate|];
        destruct (((acc * 10 + k) mod 2 ^ 64 <? acc * 10)
                  || ((acc * 10 + k) mod 2 ^ 64 >? maxVal)) eqn:Ho;
          [discriminate|];
        apply orb_false_elim in Ho as [Ho%Z.ltb_ge _];
        assert ((acc * 10 + k) mod 2 ^ 64 = acc * 10 + k) as Hmod
          by (change (2 ^ 64) with 18446744073709551616 in *;
              Z.div_mod_to_equations; lia);
        rewrite Hmod in H; apply IHd in H; [exact H | lia]
    end.
Qed.

(** A number that does not fit the width asked for is not read back. *)
Lemma ParseInt_FormatUint_range (n bitSize : Z) :
  1 <= bitSize -> 2 ^ (bitSize - 1) <= n ->
  exists e, strconv.ParseInt (strconv.FormatUint n) bitSize = inl e.
Proof.
  intros Hb Hn. rewrite strconv_more.FormatUint_digits.
  destruct (strconv_more.digits_head _ (strconv_more.to_uint_nonnil (Z.to_N n)))
    as (c & rest & E & Hplus & Hminus).
  assert (0 < 2 ^ (bitSize - 1)) as Hpow by (apply Z.pow_pos_nonneg; lia).
  unfold strconv.ParseInt. rewrite E, Hplus, Hminus, <- E.
  destruct (strconv.ParseUint _ bitSize) as [e|un] eqn:Hu; [eauto|].
  unfold strconv.ParseUint in Hu. rewrite E, <- E in Hu.
  apply parse_digits_sound in Hu; [|lia].
  rewrite strconv_more.FormatUint_value in Hu by lia. subst un.
  cbn [negb andb]. destruct (Z.geb_spec n (2 ^ (bitSize - 1))); [eauto|lia].
Qed.

(** X22. A configuration with 128 passes or more, or with a memory size of
    2^31 KiB or more, writes a parameter string that [Configure] rejects.
    [Configure] returns such configurations for negative numbers. *)
Theorem Configure_rejects_encodedString (uc c : argon2) (hashSize : Z) :
  Mode c = "i" \/ Mode c = "id" ->
  128 <= MemoryPasses c \/ 2 ^ 31 <= MemorySize c ->
  Configure uc (encodedString c) ":" hashSize = Err errBadParameters.
Proof.
  intros Hmode Hbig.
  rewrite (gohash_facts.Configure_fields _ _ _ _ _ _ _ _
             (gohash_hash.Split_encodedString c Hmode)).
  destruct Hbig as [Hp|Hm].
  - destruct (ParseInt_FormatUint_range (MemoryPasses c) 8) as [e ->];
      [lia | exact Hp | reflexivity].
  - destruct (strconv.ParseInt (strconv.FormatUint (MemoryPasses c)) 8);
      [reflexivity|].
    destruct (ParseInt_FormatUint_range (MemorySize c) 32) as [e ->];
      [lia | exact Hm | reflexivity].
Qed.

Lemma Configure_rejects_encodedString_witness :
  Configure default "id:-1:65536" ":" 32
    = Ok {| MemoryPasses := 4294967295; MemorySize := 65536; Mode := "id";
            HashSize := 32 |} /\
  Configure default
    (encodedString {| MemoryPasses := 4294967295; MemorySize := 65536;
                      Mode := "id"; HashSize := 32 |}) ":" 32
    = Err errBadParameters.
Proof.
  split; [vm_compute; reflexivity|].
  apply Configure_rejects_encodedString;
    [right; reflexivity | left; vm_compute; intros; discriminate].
Defined.

(** *** [SetHashSize] and [init] *)

(** X23. [SetHashSize] rejects the size zero and changes nothing then; on a
    positive size it overwrites the hash size of the receiver, in place,
    and nothing else. *)
Theorem SetHashSize_spec (uc : ptr.loc) (size : Z) (v : argon2)
    (h : gmap ptr.loc argon2) :
  h !! uc = Some v ->
  (size <= 0 -> ptr.SetHashSize uc size h = Err errBadHashSize) /\
  (0 < size ->
     exists h', ptr.SetHashSize uc size h = Ok h' /\
       h' !! uc = Some {| MemoryPasses := MemoryPasses v;
                          MemorySize := MemorySize v;
                          Mode := Mode v; HashSize := size |} /\
       forall l, l <> uc -> h' !! l = h !! l).
Proof.
  intros Hv. unfold ptr.SetHashSize. split; intros Hs.
  - destruct (Z.leb_spec size 0); [reflexivity | lia].
  - destruct (Z.leb_spec size 0); [lia|]. rewrite Hv.
    eexists. split; [reflexivity|]. split.
    + apply lookup_insert_eq.
    + intros l Hl. by rewrite lookup_insert_ne.
Qed.

Lemma SetHashSize_spec_witness :
  exists h' : gmap ptr.loc argon2,
    ptr.SetHashSize 1%positive 64 {[ 1%positive := default ]} = Ok h' /\
    h' !! 1%positive
      = Some {| MemoryPasses := 4; MemorySize := 65536; Mode := "id";
                HashSize := 64 |}.
Proof.
  destruct (SetHashSize_spec 1%positive 64 default {[ 1%positive := default ]}
              (lookup_singleton_eq _ _)) as [_ H].
  destruct (H ltac:(lia)) as (h' & H1 & H2 & _).
  exists h'. exact (conj H1 H2).
Defined.

(** [init] stores the default configuration under [argon2], leaves the
    other entries alone, and keeps a registry keyed by identifier. *)
Theorem init_registry
    (deriveKey :
       variant -> list byte -> list byte -> Z -> Z -> Z -> Z -> list byte)
    (argonThreads : Z) (reg : gmap string HashImplementation) :
  init deriveKey argonThreads reg !! hash.DefaultAlgo
    = Some (defaultImplementation deriveKey argonThreads) /\
  (forall id, id <> hashID ->
     init deriveKey argonThreads reg !! id = reg !! id) /\
  (keyed_by_id reg -> keyed_by_id (init deriveKey argonThreads reg)) /\
  (argon2_only deriveKey argonThreads reg ->
     argon2_only deriveKey argonThreads (init deriveKey argonThreads reg)).
Proof.
  unfold init. split; [apply lookup_insert_eq|].
  split; [intros id Hid; by rewrite lookup_insert_ne|].
  split.
  - intros Hk id impl H.
    apply lookup_insert_Some in H as [[<- <-]|[_ H]]; [reflexivity|].
    by apply Hk.
  - intros Ho id impl H.
    apply lookup_insert_Some in H as [[<- <-]|[_ H]]; [|by eapply Ho].
    by exists default.
Qed.

End gohash_limits.

(** ** The engine, further: failures of [parseHash] *)

Section ParseFailures.

Variable hmac_sha256 : list byte -> list byte -> list byte.
Variable reg : gmap string HashImplementation.

Lemma VerifyHash_parse_failure (record : string) (input : list byte) :
  (forall e, hash.parseHash reg record = Err e ->
     hash.VerifyHash hmac_sha256 reg record input = Err e) /\
  (forall p, hash.parseHash reg record = Panic p ->
     hash.VerifyHash hmac_sha256 reg record input = Panic p).
Proof. rewrite VerifyHash_steps. split; intros ? ->; reflexivity. Qed.

Lemma NeedsRehash_parse_failure (record : string) :
  (forall e, hash.parseHash reg record = Err e ->
     hash.NeedsRehash reg record = Err e) /\
  (forall p, hash.parseHash reg record = Panic p ->
     hash.NeedsRehash reg record = Panic p).
Proof. unfold hash.NeedsRehash. split; intros ? ->; reflexivity. Qed.

(** X1. A record with fewer than four [$] has fewer than five fields:
    [parseHash], [VerifyHash] and [NeedsRehash] fail with the bad-format
    error, whatever is registered. The empty record is one of them. *)
Theorem too_few_separators (record : string) (input : list byte) :
  (count_char "$" record < 4)%nat ->
  hash.parseHash reg record = Err errBadHashFormat /\
  hash.VerifyHash hmac_sha256 reg record input = Err errBadHashFormat /\
  hash.NeedsRehash reg record = Err errBadHashFormat.
Proof.
  intros H.
  assert (hash.parseHash reg record = Err errBadHashFormat) as Hp.
  { apply hash_facts.parseHash_short. unfold hash.Separator.
    rewrite strings_facts.Split_one, strings_more.length_splitFrom. lia. }
  split; [exact Hp|]. split.
  - by apply VerifyHash_parse_failure.
  - by apply NeedsRehash_parse_failure.
Qed.

(** X2. An identifier that is not registered: unknown implementation. *)
Theorem unknown_identifier (record : string) (input : list byte)
    (f0 id params blob key : string) (rest : list string) :
  strings.Split record hash.Separator = f0 :: id :: params :: blob :: key :: rest ->
  reg !! id = None ->
  hash.parseHash reg record = Err errUnknownHashImpl /\
  hash.VerifyHash hmac_sha256 reg record input = Err errUnknownHashImpl /\
  hash.NeedsRehash reg record = Err errUnknownHashImpl.
Proof.
  intros E Hreg.
  assert (hash.parseHash reg record = Err errUnknownHashImpl) as Hp.
  { rewrite (hash_facts.parseHash_fields _ _ _ _ _ _ _ _ E), Hreg. reflexivity. }
  split; [exact Hp|]. split.
  - by apply VerifyHash_parse_failure.
  - by apply NeedsRehash_parse_failure.
Qed.

(** X3. A salt field that is no base64 text: bad format; the position that
    the decoder reports is dropped. *)
Theorem undecodable_salt (record : string) (input : list byte)
    (f0 id params blob key : string) (rest : list string)
    (impl : HashImplementation) (e : error) :
  strings.Split record hash.Separator = f0 :: id :: params :: blob :: key :: rest ->
  reg !! id = Some impl ->
  base64.DecodeString blob = Err e ->
  hash.parseHash reg record = Err errBadHashFormat /\
  hash.VerifyHash hmac_sha256 reg record input = Err errBadHashFormat /\
  hash.NeedsRehash reg record = Err errBadHashFormat.
Proof.
  intros E Hreg Hblob.
  assert (hash.parseHash reg record = Err errBadHashFormat) as Hp.
  { rewrite (hash_facts.parseHash_fields _ _ _ _ _ _ _ _ E), Hreg, Hblob.
    reflexivity. }
  split; [exact Hp|]. split.
  - by apply VerifyHash_parse_failure.
  - by apply NeedsRehash_parse_failure.
Qed.

(** X4. [parseHash] panics in one case only, the empty salt blob of a record
    that has five fields and a registered identifier; and [NeedsRehash]
    panics exactly when [parseHash] does. *)
Theorem parseHash_panic_iff (record : string) (p : panic) :
  (hash.parseHash reg record = Panic p <->
     p = IndexOutOfRange 0 0 /\
     exists f0 id params blob key rest impl,
       strings.Split record hash.Separator
         = f0 :: id :: params :: blob :: key :: rest /\
       reg !! id = Some impl /\
       base64.DecodeString blob = Ok []) /\
  (hash.NeedsRehash reg record = Panic p <->
     hash.parseHash reg record = Panic p).
Proof.
  split.
  - split.
    + intros H.
      destruct (Nat.ltb (length (strings.Split record hash.Separator))
                  hash.MinHashParts) eqn:El.
      { unfold hash.parseHash in H. rewrite El in H. discriminate. }
      destruct (hash_facts.five_fields _ El)
        as (f0 & id & f2 & blob & f4 & rest & E).
      rewrite (hash_facts.parseHash_fields _ _ _ _ _ _ _ _ E) in H.
      destruct (reg !! id) as [impl|] eqn:Hreg; [|discriminate].
      destruct (base64.DecodeString blob) as [[|s0 salt]|e|q] eqn:Hd;
        try discriminate.
      * injection H as <-. split; [reflexivity|].
        by exists f0, id, f2, blob, f4, rest, impl.
      * by apply base64_more.DecodeString_no_panic in Hd.
    + intros (-> & f0 & id & params & blob & key & rest & impl & E & Hreg & Hd).
      rewrite (hash_facts.parseHash_fields _ _ _ _ _ _ _ _ E), Hreg, Hd.
      reflexivity.
  - unfold hash.NeedsRehash.
    destruct (hash.parseHash reg record) as [[[[[i ps] s] hs] k]|e|q]; cbn;
      split; congruence.
Qed.

End ParseFailures.

Lemma too_few_separators_witness :
  hash.parseHash sample.registry "$argon2$id:4:65536$IAECAwQFBgcICQo="
    = Err errBadHashFormat /\
  hash.VerifyHash sample.hmac sample.registry
    "$argon2$id:4:65536$IAECAwQFBgcICQo=" sample.password
    = Err errBadHashFormat /\
  hash.NeedsRehash sample.registry "$argon2$id:4:65536$IAECAwQFBgcICQo="
    = Err errBadHashFormat.
Proof.
  apply (too_few_separators sample.hmac sample.registry
           "$argon2$id:4:65536$IAECAwQFBgcICQo=" sample.password).
  vm_compute. lia.
Defined.

Lemma unknown_identifier_witness :
  hash.parseHash sample.registry "$bcrypt$id:4:65536$IAECAwQFBgcICQo=$AAAA"
    = Err errUnknownHashImpl /\
  hash.VerifyHash sample.hmac sample.registry
    "$bcrypt$id:4:65536$IAECAwQFBgcICQo=$AAAA" sample.password
    = Err errUnknownHashImpl /\
  hash.NeedsRehash sample.registry "$bcrypt$id:4:65536$IAECAwQFBgcICQo=$AAAA"
    = Err errUnknownHashImpl.
Proof.
  apply (unknown_identifier sample.hmac sample.registry
           "$bcrypt$id:4:65536$IAECAwQFBgcICQo=$AAAA" sample.password
           EmptyString "bcrypt" "id:4:65536" "IAECAwQFBgcICQo=" "AAAA" []);
    [vm_compute; reflexivity | reflexivity].
Defined.

Lemma undecodable_salt_witness :
  hash.parseHash sample.registry "$argon2$id:4:65536$IAE*$AAAA"
    = Err errBadHashFormat /\
  hash.VerifyHash sample.hmac sample.registry
    "$argon2$id:4:65536$IAE*$AAAA" sample.password = Err errBadHashFormat /\
  hash.NeedsRehash sample.registry "$argon2$id:4:65536$IAE*$AAAA"
    = Err errBadHashFormat.
Proof.
  apply (undecodable_salt sample.hmac sample.registry
           "$argon2$id:4:65536$IAE*$AAAA" sample.password
           EmptyString "argon2" "id:4:65536" "IAE*" "AAAA" []
           (gohash.defaultImplementation sample.deriveKey sample.threads)
           (CorruptInputError 3));
    [vm_compute; reflexivity | reflexivity | vm_compute; reflexivity].
Defined.

(** ** The engine, further: [GenerateRandomBytes] and [Hash] *)

Lemma byte_to_of_Z (z : Z) : byte_to_Z (byte_of_Z z) = z mod 256.
Proof.
  unfold byte_of_Z, byte_to_Z.
  pose proof (Z.mod_pos_bound z 256 ltac:(lia)) as Hr.
  destruct (Byte.of_N (Z.to_N (z mod 256))) as [b|] eqn:E.
  - apply Byte.to_of_N in E. rewrite E. lia.
  - apply Byte.of_N_None_iff in E. lia.
Qed.

(** X5. [GenerateRandomBytes] returns the [length] bytes that were read when
    the source reports no error and read that many; otherwise it returns
    [nil]. So its result has [length] bytes or none. *)
Theorem GenerateRandomBytes_spec (rnd : hash.RandRead) (n : Z) :
  0 <= n ->
  (hash.rand_err rnd = false -> n <= Z.of_nat (length (hash.rand_data rnd)) ->
     hash.GenerateRandomBytes rnd n = take (Z.to_nat n) (hash.rand_data rnd) /\
     Z.of_nat (length (hash.GenerateRandomBytes rnd n)) = n) /\
  (hash.rand_err rnd = true \/ Z.of_nat (length (hash.rand_data rnd)) < n ->
     hash.GenerateRandomBytes rnd n = []).
Proof.
  intros Hn. split.
  - intros He Hlen. unfold hash.GenerateRandomBytes. rewrite He. cbn [orb].
    assert (length (take (Z.to_nat n) (hash.rand_data rnd)) = Z.to_nat n) as Hl
      by (rewrite length_take; lia).
    rewrite Hl, Z2Nat.id, Z.eqb_refl by lia. cbn [negb].
    rewrite skipn_all2 by (rewrite length_replicate; lia).
    rewrite app_nil_r. split; [reflexivity|]. rewrite Hl. lia.
  - apply GenerateRandomBytes_failure.
Qed.

Lemma GenerateRandomBytes_spec_witness :
  hash.GenerateRandomBytes sample.random hash.SaltSize
    = list_byte_of_string "0123456789" /\
  hash.GenerateRandomBytes sample.no_random hash.SaltSize = [].
Proof.
  destruct (GenerateRandomBytes_spec sample.random hash.SaltSize
              ltac:(vm_compute; intros; discriminate)) as [H _].
  destruct (GenerateRandomBytes_spec sample.no_random hash.SaltSize
              ltac:(vm_compute; intros; discriminate)) as [_ H'].
  split.
  - apply H; [reflexivity | vm_compute; intros; discriminate].
  - apply H'. left. reflexivity.
Defined.

Section HashOutcome.

Variable hmac_sha256 : list byte -> list byte -> list byte.
Variable reg : gmap string HashImplementation.

(** X6. [Hash] adds no failure of its own but one: without a plug-in under
    the default identifier it panics on a nil interface. With one, it
    fails exactly as the plug-in's [Hash] fails, and succeeds when that
    succeeds, whatever the random source did. *)
Theorem Hash_outcome (rnd : hash.RandRead) (input : list byte) :
  (reg !! hash.DefaultAlgo = None ->
     hash.Hash hmac_sha256 reg rnd input = Panic NilDereference) /\
  (forall hasher, reg !! hash.DefaultAlgo = Some hasher ->
     let salt := hash.GenerateRandomBytes rnd hash.SaltSize in
     (forall e, hash.Hash hmac_sha256 reg rnd input = Err e <->
                HashImplementation.Hash hasher input salt = Err e) /\
     (forall q, hash.Hash hmac_sha256 reg rnd input = Panic q <->
                HashImplementation.Hash hasher input salt = Panic q) /\
     ((exists record, hash.Hash hmac_sha256 reg rnd input = Ok record) <->
      (exists params key,
         HashImplementation.Hash hasher input salt = Ok (params, key)))).
Proof.
  split.
  - intros Hreg. unfold hash.Hash. rewrite Hreg. reflexivity.
  - intros hasher Hreg salt. rewrite (Hash_steps _ _ _ _ _ Hreg). cbn zeta.
    fold salt.
    destruct (HashImplementation.Hash hasher input salt) as [[ps k]|e|q].
    + split; [split; discriminate|]. split; [split; discriminate|].
      split; eauto.
    + split; [intros; split; congruence|]. split; [split; discriminate|].
      split; intros (? & H); [discriminate H | destruct H as [? H]; discriminate H].
    + split; [split; discriminate|]. split; [intros; split; congruence|].
      split; intros (? & H); [discriminate H | destruct H as [? H]; discriminate H].
Qed.

(** X7. What [Hash] wrote, [parseHash] reads back: the registered plug-in, the
    parameter string, the salt, the length of the derived key modulo 256,
    and the encoded tag. The parameter string must hold no [$]. *)
Theorem parseHash_Hash (rnd : hash.RandRead) (input : list byte)
    (hasher : HashImplementation) (params : string) (key : list byte) :
  let salt := hash.GenerateRandomBytes rnd hash.SaltSize in
  let prefix :=
    "$" +:+ hash.DefaultAlgo +:+ "$" +:+ params +:+ "$" +:+
    base64.EncodeToString (byte_of_Z (Z.of_nat (length key)) :: salt) +:+ "$" in
  let tag := hmac_sha256 (list_byte_of_string prefix) key in
  reg !! hash.DefaultAlgo = Some hasher ->
  HashImplementation.Hash hasher input salt = Ok (params, key) ->
  contains "$" params = false ->
  hash.Hash hmac_sha256 reg rnd input
    = Ok (prefix +:+ base64.EncodeToString tag) /\
  hash.parseHash reg (prefix +:+ base64.EncodeToString tag)
    = Ok (hasher, params, salt, Z.of_nat (length key) mod 256,
          base64.EncodeToString tag).
Proof.
  intros salt prefix tag Hreg Hh Hfree.
  split.
  - rewrite (Hash_steps _ _ _ _ _ Hreg). cbn zeta. fold salt. rewrite Hh.
    reflexivity.
  - set (blob := base64.EncodeToString
                   (byte_of_Z (Z.of_nat (length key)) :: salt)) in *.
    assert (strings.Split (prefix +:+ base64.EncodeToString tag) hash.Separator
            = [EmptyString; hash.DefaultAlgo; params; blob;
               base64.EncodeToString tag]) as E.
    { rewrite <- (hash_facts.Split_record EmptyString hash.DefaultAlgo params
                    blob (base64.EncodeToString tag));
        try assumption; try reflexivity;
        try apply base64_facts.EncodeToString_one_field.
      f_equal. unfold prefix. rewrite !strings_facts.app_assoc. reflexivity. }
    rewrite (hash_facts.parseHash_fields _ _ _ _ _ _ _ _ E), Hreg.
    unfold blob. rewrite base64_facts.DecodeString_EncodeToString.
    rewrite byte_to_of_Z. reflexivity.
Qed.

(** X8. In a registry keyed by identifier, a record that [Hash] returns does
    not need a rehash. *)
Theorem NeedsRehash_Hash (rnd : hash.RandRead) (input : list byte)
    (hasher : HashImplementation) (params : string) (key : list byte)
    (record : string) :
  keyed_by_id reg ->
  reg !! hash.DefaultAlgo = Some hasher ->
  HashImplementation.Hash hasher input
    (hash.GenerateRandomBytes rnd hash.SaltSize) = Ok (params, key) ->
  contains "$" params = false ->
  hash.Hash hmac_sha256 reg rnd input = Ok record ->
  hash.NeedsRehash reg record = Ok false.
Proof.
  intros Hk Hreg Hh Hfree H.
  destruct (parseHash_Hash rnd input hasher params key Hreg Hh Hfree)
    as [Hrec Hp].
  cbn zeta in Hrec, Hp. rewrite Hrec in H. injection H as <-.
  erewrite NeedsRehash_parsed by exact Hp. unfold rehash_policy.
  rewrite (Hk _ _ Hreg), String.eqb_refl. reflexivity.
Qed.

End HashOutcome.

Lemma sample_default_Hash (input salt : list byte) :
  HashImplementation.Hash
    (gohash.defaultImplementation sample.deriveKey sample.threads) input salt
  = Ok ("id:4:65536"%string,
        sample.deriveKey gohash.argon2id input salt 4 65536 sample.threads 32).
Proof. apply (default_Hash sample.deriveKey sample.threads). Qed.

Lemma parseHash_Hash_witness :
  hash.parseHash sample.registry
    "$argon2$id:4:65536$IDAxMjM0NTY3ODk=$JCRhcmdvbjIkaWQ6NDo2NTUzNiRJREF4TWpNME5UWTNPRGs9JGNvcnJlY3QtcGFzc3dvcmQwMTIzNDU2Nzg5AAAAAAAA"
  = Ok (gohash.defaultImplementation sample.deriveKey sample.threads,
        "id:4:65536"%string, list_byte_of_string "0123456789", 32,
        "JCRhcmdvbjIkaWQ6NDo2NTUzNiRJREF4TWpNME5UWTNPRGs9JGNvcnJlY3QtcGFzc3dvcmQwMTIzNDU2Nzg5AAAAAAAA"%string).
Proof.
  destruct (parseHash_Hash sample.hmac sample.registry sample.random
              sample.password _ _ _ sample_registry_argon2
              (sample_default_Hash _ _) eq_refl) as [_ H].
  cbn zeta in H.
  assert (hash.GenerateRandomBytes sample.random hash.SaltSize
          = list_byte_of_string "0123456789") as Hs by (vm_compute; reflexivity).
  rewrite Hs in H.
  match type of H with
  | hash.parseHash _ ?r = Ok (_, _, _, ?n, ?t) =>
      assert (r = "$argon2$id:4:65536$IDAxMjM0NTY3ODk=$JCRhcmdvbjIkaWQ6NDo2NTUzNiRJREF4TWpNME5UWTNPRGs9JGNvcnJlY3QtcGFzc3dvcmQwMTIzNDU2Nzg5AAAAAAAA"%string) as Hr
        by (vm_compute; reflexivity);
      assert (n = 32) as Hn by (vm_compute; reflexivity);
      assert (t = "JCRhcmdvbjIkaWQ6NDo2NTUzNiRJREF4TWpNME5UWTNPRGs9JGNvcnJlY3QtcGFzc3dvcmQwMTIzNDU2Nzg5AAAAAAAA"%string) as Ht
        by (vm_compute; reflexivity);
      rewrite Hr, Hn, Ht in H
  end.
  exact H.
Defined.

Lemma NeedsRehash_Hash_witness :
  hash.NeedsRehash sample.registry
    "$argon2$id:4:65536$IDAxMjM0NTY3ODk=$JCRhcmdvbjIkaWQ6NDo2NTUzNiRJREF4TWpNME5UWTNPRGs9JGNvcnJlY3QtcGFzc3dvcmQwMTIzNDU2Nzg5AAAAAAAA"
  = Ok false.
Proof.
  apply (NeedsRehash_Hash sample.hmac sample.registry sample.random
           sample.password _ _ _ _ sample_registry_keyed sample_registry_argon2
           (sample_default_Hash _ _) eq_refl).
  vm_compute. reflexivity.
Defined.

(** ** The engine, further: [VerifyHash] on argon2 records *)

Lemma decodeFrom_error (src : string) :
  forall si dbuf e, base64.decodeFrom src si dbuf = Err e ->
    exists n, e = CorruptInputError n.
Proof.
  induction src as [|c rest IH]; intros si dbuf e H.
  - cbn in H. destruct dbuf; [discriminate|]. injection H as <-. eauto.
  - cbn [base64.decodeFrom] in H.
    destruct (base64.decodeMap c) as [out|].
    + destruct (length (dbuf ++ [out]) =? 4)%nat; [|by eapply IH].
      destruct (base64.decodeFrom rest (si + 1) []) eqn:E; cbn in H;
        try discriminate. injection H as <-. by eapply IH.
    + destruct (base64.isNewline c); [by eapply IH|].
      destruct (negb (Ascii.eqb c base64.padChar));
        [injection H as <-; eauto|].
      destruct (length dbuf) as [|[|[|n]]]; try (injection H as <-; eauto).
      * destruct (base64.skipNewlines rest (si + 1)) as [rest1 si1].
        destruct rest1 as [|c1 rest2]; [injection H as <-; eauto|].
        destruct (negb (Ascii.eqb c1 base64.padChar));
          [injection H as <-; eauto|].
        destruct (base64.skipNewlines rest2 (si1 + 1)) as [rest3 si3].
        destruct rest3; [discriminate | injection H as <-; eauto].
      * destruct (base64.skipNewlines rest (si + 1)) as [rest3 si3].
        destruct rest3; [discriminate | injection H as <-; eauto].
Qed.

Section Argon2Records.

Variable deriveKey :
  gohash.variant -> list byte -> list byte -> Z -> Z -> Z -> Z -> list byte.
Variable argonThreads : Z.
Variable hmac_sha256 : list byte -> list byte -> list byte.
Variable reg : gmap string HashImplementation.

Local Abbreviation argon2_value cfg :=
  (@Iface _ (gohash.argon2_methods deriveKey argonThreads) cfg).

Lemma argon2_value_Configure (cfg : gohash.argon2) (params sep : string)
    (hashSize : Z) :
  HashImplementation.Configure (argon2_value cfg) params sep hashSize
    = (fun nc => argon2_value nc) <$> gohash.Configure cfg params sep hashSize.
Proof. reflexivity. Qed.

Lemma argon2_value_Hash (cfg : gohash.argon2) (input salt : list byte) :
  HashImplementation.Hash (argon2_value cfg) input salt
    = gohash.Hash deriveKey argonThreads cfg (string_of_list_byte input) salt.
Proof. reflexivity. Qed.

(** X9. [VerifyHash] on a well-formed argon2 record: the parameter string
    configures the plug-in (whatever configuration is registered), the key
    is derived from the input and the salt of the record with those
    parameters and the length byte as key length, and the answer tells
    whether the stored tag is the HMAC of that key under the prefix. *)
Theorem VerifyHash_argon2 (id params : string) (b : byte)
    (salt tag input : list byte) (cfg nc : gohash.argon2) :
  contains "$" id = false -> contains "$" params = false ->
  reg !! id = Some (argon2_value cfg) ->
  gohash.Configure cfg params ":" (byte_to_Z b) = Ok nc ->
  1 <= argonThreads ->
  let prefix := "$" +:+ id +:+ "$" +:+ params +:+ "$" +:+
                base64.EncodeToString (b :: salt) +:+ "$" in
  hash.VerifyHash hmac_sha256 reg (prefix +:+ base64.EncodeToString tag) input
    = Ok (hash.hmac_Equal tag
            (hmac_sha256 (list_byte_of_string prefix)
               (deriveKey (variant_of_mode (gohash.Mode nc)) input salt
                  (gohash.MemoryPasses nc) (gohash.MemorySize nc)
                  argonThreads (gohash.HashSize nc)))).
Proof.
  intros Hid Hparams Hreg Hconf Hth prefix.
  apply (VerifyHash_record hmac_sha256 reg id params b salt tag
           (argon2_value cfg) (argon2_value nc) input (gohash.encodedString nc));
    try assumption.
  - rewrite argon2_value_Configure.
    assert (uint32 (byte_to_Z b) = byte_to_Z b) as ->.
    { pose proof (byte_to_Z_range b). apply Z.mod_small.
      change (2 ^ 32) with 4294967296. lia. }
    unfold hash.ParameterSeparator. rewrite Hconf. reflexivity.
  - rewrite argon2_value_Hash.
    rewrite (gohash_hash.Hash_after_Configure _ _ _ _ _ _ _ _ _ Hconf).
    destruct (Z.ltb_spec argonThreads 1); [lia|].
    rewrite list_byte_of_string_of_list_byte. reflexivity.
Qed.

(** X10. With argon2 configurations alone in the registry and at least one
    thread, [VerifyHash] fails with one of four errors only (bad format,
    unknown implementation, bad parameters, or the decoder's error for the
    tag field), never with the unknown-mode error, and its only panic is
    the index out of range of the empty salt blob. *)
Theorem VerifyHash_argon2_failures (record : string) (input : list byte) :
  argon2_only deriveKey argonThreads reg -> 1 <= argonThreads ->
  (forall e, hash.VerifyHash hmac_sha256 reg record input = Err e ->
     e = errBadHashFormat \/ e = errUnknownHashImpl \/ e = errBadParameters \/
     exists n, e = CorruptInputError n) /\
  (forall q, hash.VerifyHash hmac_sha256 reg record input = Panic q ->
     q = IndexOutOfRange 0 0).
Proof.
  intros Honly Hth. rewrite VerifyHash_steps.
  destruct (hash.parseHash reg record) as [[[[[i ps] s] hs] k]|e|q] eqn:Hp.
  - apply hash_facts.parseHash_Ok in Hp
      as (f0 & id & blob & rest & s0 & E & Hreg & _).
    destruct (Honly _ _ Hreg) as [cfg ->].
    rewrite argon2_value_Configure.
    pose proof (gohash_more.Configure_only_bad_parameters cfg ps
                  hash.ParameterSeparator (uint32 hs)) as [Hnp Herr].
    destruct (gohash.Configure cfg ps hash.ParameterSeparator (uint32 hs))
      as [nc|e|q] eqn:Hc; cbn [fmap result_fmap].
    + rewrite argon2_value_Hash.
      rewrite (gohash_hash.Hash_after_Configure _ _ _ _ _ _ _ _ _ Hc).
      destruct (Z.ltb_spec argonThreads 1); [lia|].
      destruct (base64.DecodeString k) as [mac|e|q] eqn:Hd.
      * split; discriminate.
      * split; [|discriminate]. intros e' [= <-].
        apply decodeFrom_error in Hd. auto.
      * by apply base64_more.DecodeString_no_panic in Hd.
    + split; [|discriminate]. intros e' [= <-].
      rewrite (Herr e eq_refl). auto.
    + by specialize (Hnp q).
  - split; [|discriminate]. intros e' [= <-].
    apply hash_facts.parseHash_Err in Hp as [-> | ->]; auto.
  - split; [discriminate|]. intros q' [= <-].
    by apply (parseHash_panic_iff reg record q) in Hp as [-> _].
Qed.

(** X11. With argon2 configurations alone in the registry, [NeedsRehash] never
    answers [true]: every plug-in has the default identifier. *)
Theorem NeedsRehash_argon2_only (record : string) :
  argon2_only deriveKey argonThreads reg ->
  hash.NeedsRehash reg record <> Ok true.
Proof.
  intros Honly H. unfold hash.NeedsRehash in H.
  destruct (hash.parseHash reg record) as [[[[[i ps] s] hs] k]|e|q] eqn:Hp;
    try discriminate.
  apply hash_facts.parseHash_Ok in Hp
    as (f0 & id & blob & rest & s0 & E & Hreg & _).
  destruct (Honly _ _ Hreg) as [cfg ->]. discriminate H.
Qed.

End Argon2Records.

Lemma sample_registry_argon2_only :
  argon2_only sample.deriveKey sample.threads sample.registry.
Proof.
  intros id impl H. unfold sample.registry, gohash.init in H.
  apply lookup_insert_Some in H as [[<- <-]|[_ H]]; [by exists gohash.default|].
  by rewrite lookup_empty in H.
Qed.

Lemma VerifyHash_argon2_witness :
  hash.VerifyHash sample.hmac sample.registry
    "$argon2$i:1:8$BHNhbHQ=$FyRhcmdvbjIkaToxOjgkQkhOaGJIUT0kY29ycg=="
    sample.password = Ok true.
Proof.
  pose proof (VerifyHash_argon2 sample.deriveKey sample.threads sample.hmac
    sample.registry "argon2" "i:1:8" (byte_of_Z 4) (list_byte_of_string "salt")
    (sample.hmac (list_byte_of_string "$argon2$i:1:8$BHNhbHQ=$")
       (list_byte_of_string "corr"))
    sample.password gohash.default
    {| gohash.MemoryPasses := 1; gohash.MemorySize := 8; gohash.Mode := "i";
       gohash.HashSize := 4 |}) as H.
  cbn zeta in H.
  match type of H with
  | _ -> _ -> _ -> _ -> _ -> hash.VerifyHash _ _ ?r _ = Ok ?v =>
      assert (r = "$argon2$i:1:8$BHNhbHQ=$FyRhcmdvbjIkaToxOjgkQkhOaGJIUT0kY29ycg=="%string)
        as Hr by (vm_compute; reflexivity);
      assert (v = true) as Hv by (vm_compute; reflexivity);
      rewrite Hr, Hv in H
  end.
  apply H; [reflexivity | reflexivity | reflexivity | vm_compute; reflexivity
           | vm_compute; intros; discriminate].
Defined.

Lemma VerifyHash_argon2_failures_witness :
  hash.VerifyHash sample.hmac sample.registry
    "$argon2$x:0:0$IAECAwQFBgcICQo=$AAAA" sample.password
  = Err errBadParameters.
Proof.
  destruct (hash.VerifyHash sample.hmac sample.registry
              "$argon2$x:0:0$IAECAwQFBgcICQo=$AAAA" sample.password)
    as [b|e|q] eqn:Hv; [vm_compute in Hv; discriminate Hv | | vm_compute in Hv;
                        discriminate Hv].
  destruct (VerifyHash_argon2_failures sample.deriveKey sample.threads
              sample.hmac sample.registry "$argon2$x:0:0$IAECAwQFBgcICQo=$AAAA"
              sample.password sample_registry_argon2_only
              ltac:(vm_compute; intros; discriminate)) as [He _].
  destruct (He e Hv) as [-> | [-> | [-> | [n ->]]]];
    first [reflexivity | vm_compute in Hv; discriminate Hv].
Defined.

Lemma NeedsRehash_argon2_only_witness :
  hash.NeedsRehash sample.registry "$argon2$id:4:65536$IAE=$AAAA" = Ok false.
Proof.
  pose proof (NeedsRehash_argon2_only sample.deriveKey sample.threads
                sample.registry "$argon2$id:4:65536$IAE=$AAAA"
                sample_registry_argon2_only) as H.
  destruct (hash.NeedsRehash sample.registry "$argon2$id:4:65536$IAE=$AAAA")
    as [[|]|e|q] eqn:Hn; first [reflexivity | congruence
                               | vm_compute in Hn; discriminate Hn].
Defined.

(** ** The engine, further: the records of the default plug-in *)

Section DefaultRecords.

Variable deriveKey :
  gohash.variant -> list byte -> list byte -> Z -> Z -> Z -> Z -> list byte.
Variable argonThreads : Z.
Variable hmac_sha256 : list byte -> list byte -> list byte.
Variable reg : gmap string HashImplementation.

Hypothesis registered :
  reg !! hash.DefaultAlgo
    = Some (gohash.defaultImplementation deriveKey argonThreads).

(** What [Hash] returns with the default plug-in, when it returns. *)
Lemma Hash_default (rnd : hash.RandRead) (input : list byte) (record : string) :
  hash.Hash hmac_sha256 reg rnd input = Ok record ->
  let salt := hash.GenerateRandomBytes rnd hash.SaltSize in
  let key := deriveKey gohash.argon2id input salt 4 65536 argonThreads 32 in
  let prefix := "$" +:+ hash.DefaultAlgo +:+ "$" +:+ "id:4:65536" +:+ "$" +:+
                base64.EncodeToString
                  (byte_of_Z (Z.of_nat (length key)) :: salt) +:+ "$" in
  1 <= argonThreads /\
  HashImplementation.Hash
    (gohash.defaultImplementation deriveKey argonThreads) input salt
    = Ok ("id:4:65536"%string, key) /\
  record = prefix +:+
    base64.EncodeToString (hmac_sha256 (list_byte_of_string prefix) key).
Proof.
  intros H salt key prefix.
  rewrite (Hash_steps _ _ _ _ _ registered) in H. cbn zeta in H.
  rewrite default_Hash in H |- *. fold salt in H.
  destruct (Z.ltb_spec argonThreads 1); [discriminate|].
  injection H as <-. auto.
Qed.

(** X12. The record format. A record of the default plug-in has exactly four
    [$]; it splits into the empty field, [argon2], [id:4:65536], the salt
    field and the tag field; these two are base64 text, of four characters
    for every three bytes (or part of three) encoded. *)
Theorem Hash_record_format (rnd : hash.RandRead) (input : list byte)
    (record : string) :
  hash.Hash hmac_sha256 reg rnd input = Ok record ->
  exists blob tag tagBytes,
    record = "$argon2$id:4:65536$" +:+ blob +:+ "$" +:+ tag /\
    strings.Split record hash.Separator
      = [EmptyString; "argon2"; "id:4:65536"; blob; tag]%string /\
    count_char "$" record = 4%nat /\
    base64_text blob = true /\ base64_text tag = true /\
    tag = base64.EncodeToString tagBytes /\
    Z.of_nat (String.length blob)
      = 4 * ((Z.of_nat (length (hash.GenerateRandomBytes rnd hash.SaltSize)) + 3) / 3) /\
    Z.of_nat (String.length tag) = 4 * ((Z.of_nat (length tagBytes) + 2) / 3).
Proof.
  intros H. apply Hash_default in H as (_ & _ & Hrec). cbn zeta in Hrec.
  set (salt := hash.GenerateRandomBytes rnd hash.SaltSize) in *.
  set (key := deriveKey gohash.argon2id input salt 4 65536 argonThreads 32) in *.
  set (blob := base64.EncodeToString (byte_of_Z (Z.of_nat (length key)) :: salt))
    in *.
  match type of Hrec with
  | _ = _ +:+ base64.EncodeToString ?t => set (tagBytes := t) in *
  end.
  exists blob, (base64.EncodeToString tagBytes), tagBytes.
  assert (record = "$argon2$id:4:65536$" +:+ blob +:+ "$"
                   +:+ base64.EncodeToString tagBytes) as Hshape.
  { rewrite Hrec. unfold hash.DefaultAlgo.
    rewrite !strings_facts.app_assoc. reflexivity. }
  assert (strings.Split record hash.Separator
          = [EmptyString; "argon2"; "id:4:65536"; blob;
             base64.EncodeToString tagBytes]%string) as Hsplit.
  { rewrite Hshape.
    rewrite <- (hash_facts.Split_record EmptyString "argon2" "id:4:65536" blob
                  (base64.EncodeToString tagBytes));
      try reflexivity; try apply base64_facts.EncodeToString_one_field. }
  split; [exact Hshape|]. split; [exact Hsplit|]. split.
  { pose proof (strings_more.length_splitFrom "$" record) as Hl.
    unfold hash.Separator in Hsplit. rewrite strings_facts.Split_one in Hsplit.
    rewrite Hsplit in Hl. cbn [length] in Hl. lia. }
  split; [apply base64_more.EncodeToString_text|].
  split; [apply base64_more.EncodeToString_text|].
  split; [reflexivity|]. split.
  - unfold blob. rewrite base64_more.EncodeToString_length. cbn [length].
    rewrite Nat2Z.inj_succ. f_equal. f_equal. lia.
  - apply base64_more.EncodeToString_length.
Qed.

(** X13. A record keeps its salt: two calls of [Hash] that drew different
    salts return different records, whatever the passwords. *)
Theorem Hash_distinct_salts (rnd rnd' : hash.RandRead) (input input' : list byte)
    (record record' : string) :
  hash.Hash hmac_sha256 reg rnd input = Ok record ->
  hash.Hash hmac_sha256 reg rnd' input' = Ok record' ->
  hash.GenerateRandomBytes rnd hash.SaltSize
    <> hash.GenerateRandomBytes rnd' hash.SaltSize ->
  record <> record'.
Proof.
  intros H H' Hsalt Heq.
  apply Hash_default in H as (_ & Hh & Hrec).
  apply Hash_default in H' as (_ & Hh' & Hrec'). cbn zeta in *.
  destruct (parseHash_Hash hmac_sha256 reg rnd input _ _ _ registered Hh eq_refl)
    as [_ Hp].
  destruct (parseHash_Hash hmac_sha256 reg rnd' input' _ _ _ registered Hh' eq_refl)
    as [_ Hp'].
  cbn zeta in Hp, Hp'. rewrite <- Hrec in Hp. rewrite <- Hrec' in Hp'.
  rewrite Heq in Hp. apply Hsalt. congruence.
Qed.

(** X14. Verifying a record with another input: the answer tells whether the
    tag of the key derived from that input, with the salt and the prefix
    of the record, equals the stored tag. The argon2 library is taken to
    return the 32 bytes it is asked for. *)
Theorem VerifyHash_other_input (rnd : hash.RandRead) (input other : list byte)
    (record : string) :
  (forall password salt,
     length (deriveKey gohash.argon2id password salt 4 65536 argonThreads 32)
       = 32%nat) ->
  hash.Hash hmac_sha256 reg rnd input = Ok record ->
  let salt := hash.GenerateRandomBytes rnd hash.SaltSize in
  let prefix := "$argon2$id:4:65536$" +:+
                base64.EncodeToString (byte_of_Z 32 :: salt) +:+ "$" in
  let tag_of password :=
    hmac_sha256 (list_byte_of_string prefix)
      (deriveKey gohash.argon2id password salt 4 65536 argonThreads 32) in
  hash.VerifyHash hmac_sha256 reg record other
    = Ok (hash.hmac_Equal (tag_of input) (tag_of other)) /\
  (hash.VerifyHash hmac_sha256 reg record other = Ok true
     <-> tag_of input = tag_of other).
Proof.
  intros Hlen H salt prefix tag_of.
  apply Hash_default in H as (Hth & _ & Hrec). cbn zeta in Hrec.
  rewrite Hlen in Hrec. fold salt in Hrec.
  assert (hash.VerifyHash hmac_sha256 reg record other
          = Ok (hash.hmac_Equal (tag_of input) (tag_of other))) as Hv.
  { rewrite Hrec.
    erewrite (VerifyHash_record hmac_sha256 reg hash.DefaultAlgo "id:4:65536"
                (byte_of_Z (Z.of_nat 32)) salt _ _ _ other _
                (deriveKey gohash.argon2id other salt 4 65536 argonThreads 32));
      [reflexivity | reflexivity | reflexivity | exact registered | | ].
    - change (uint32 (byte_to_Z (byte_of_Z (Z.of_nat 32)))) with 32.
      apply default_Configure.
    - rewrite default_Hash. destruct (Z.ltb_spec argonThreads 1); [lia|].
      reflexivity. }
  split; [exact Hv|]. rewrite Hv. unfold hash.hmac_Equal. split.
  - intros [= Hb]. by apply bool_decide_eq_true in Hb.
  - intros Ht. f_equal. by apply bool_decide_eq_true.
Qed.

End DefaultRecords.

Lemma Hash_record_format_witness :
  count_char "$"
    "$argon2$id:4:65536$IDAxMjM0NTY3ODk=$JCRhcmdvbjIkaWQ6NDo2NTUzNiRJREF4TWpNME5UWTNPRGs9JGNvcnJlY3QtcGFzc3dvcmQwMTIzNDU2Nzg5AAAAAAAA"
  = 4%nat.
Proof.
  destruct (Hash_record_format sample.deriveKey sample.threads sample.hmac
              sample.registry sample_registry_argon2 sample.random
              sample.password
              "$argon2$id:4:65536$IDAxMjM0NTY3ODk=$JCRhcmdvbjIkaWQ6NDo2NTUzNiRJREF4TWpNME5UWTNPRGs9JGNvcnJlY3QtcGFzc3dvcmQwMTIzNDU2Nzg5AAAAAAAA")
    as (blob & tag & tagBytes & _ & _ & Hc & _).
  - vm_compute. reflexivity.
  - exact Hc.
Defined.

Lemma Hash_distinct_salts_witness :
  ("$argon2$id:4:65536$IDAxMjM0NTY3ODk=$JCRhcmdvbjIkaWQ6NDo2NTUzNiRJREF4TWpNME5UWTNPRGs9JGNvcnJlY3QtcGFzc3dvcmQwMTIzNDU2Nzg5AAAAAAAA"
   <> "$argon2$id:4:65536$IA==$GCRhcmdvbjIkaWQ6NDo2NTUzNiRJQT09JGNvcnJlY3QtcGFzc3dvcmQAAAAAAAAAAAAAAAAAAAAA")%string.
Proof.
  apply (Hash_distinct_salts sample.deriveKey sample.threads sample.hmac
           sample.registry sample_registry_argon2 sample.random sample.no_random
           sample.password sample.password);
    [vm_compute; reflexivity | vm_compute; reflexivity
    | vm_compute; intros; discriminate].
Defined.

Lemma VerifyHash_other_input_witness :
  hash.VerifyHash sample.hmac sample.registry
    "$argon2$id:4:65536$IDAxMjM0NTY3ODk=$JCRhcmdvbjIkaWQ6NDo2NTUzNiRJREF4TWpNME5UWTNPRGs9JGNvcnJlY3QtcGFzc3dvcmQwMTIzNDU2Nzg5AAAAAAAA"
    (list_byte_of_string "wrong-password") = Ok false.
Proof.
  destruct (VerifyHash_other_input sample.deriveKey sample.threads sample.hmac
              sample.registry sample_registry_argon2 sample.random
              sample.password (list_byte_of_string "wrong-password")
              "$argon2$id:4:65536$IDAxMjM0NTY3ODk=$JCRhcmdvbjIkaWQ6NDo2NTUzNiRJREF4TWpNME5UWTNPRGs9JGNvcnJlY3QtcGFzc3dvcmQwMTIzNDU2Nzg5AAAAAAAA")
    as [Hv _].
  - intros password salt. apply sample_deriveKey_length.
  - vm_compute. reflexivity.
  - rewrite Hv. vm_compute. reflexivity.
Defined.

(** ** [Configure] and its receiver *)

Module gohash_receiver.
Import gohash.

(** X17. [Configure] does not depend on which configuration its receiver
    holds: two allocated receivers give the same result, the same new
    address and the same store, for the same arguments. (A receiver that
    points nowhere is another matter: see [ptr_Configure_nil].) *)
Theorem ptr_Configure_receiver_irrelevant (uc uc' : ptr.loc) (v v' : argon2)
    (parameters separator : string) (hashSize : Z) (h : gmap ptr.loc argon2) :
  h !! uc = Some v -> h !! uc' = Some v' ->
  ptr.Configure uc parameters separator hashSize h
    = ptr.Configure uc' parameters separator hashSize h.
Proof.
  intros Hv Hv'.
  rewrite (gohash_facts.ptr_Configure_refines _ _ _ _ _ _ Hv).
  rewrite (gohash_facts.ptr_Configure_refines _ _ _ _ _ _ Hv').
  rewrite (gohash_more.Configure_receiver_irrelevant v v'). reflexivity.
Qed.

(** X18. On an allocated receiver [Configure] never panics (the three
    index expressions are guarded by the length check), and bad parameters
    is the only error it returns. *)
Theorem ptr_Configure_only_bad_parameters (uc : ptr.loc) (v : argon2)
    (parameters separator : string) (hashSize : Z) (h : gmap ptr.loc argon2) :
  h !! uc = Some v ->
  (forall p, ptr.Configure uc parameters separator hashSize h <> Panic p) /\
  (forall e, ptr.Configure uc parameters separator hashSize h = Err e ->
     e = errBadParameters).
Proof.
  intros Hv. rewrite (gohash_facts.ptr_Configure_refines _ _ _ _ _ _ Hv).
  destruct (gohash_more.Configure_only_bad_parameters v parameters separator
              hashSize) as [Hnp Herr].
  destruct (Configure v parameters separator hashSize) as [nc|e|p];
    cbn [fmap result_fmap].
  - split; [discriminate | congruence].
  - split; [discriminate|]. intros e' [= <-]. by apply Herr.
  - by specialize (Hnp p).
Qed.

(** A receiver that points nowhere: [Configure] still answers bad
    parameters when the string has fewer than three fields or a number
    does not parse, and panics on the dereference [nc := *uc] otherwise. *)
Lemma ptr_Configure_nil (uc : ptr.loc) (parameters separator : string)
    (hashSize : Z) (h : gmap ptr.loc argon2) :
  h !! uc = None ->
  ptr.Configure uc parameters separator hashSize h = Err errBadParameters \/
  ptr.Configure uc parameters separator hashSize h = Panic NilDereference.
Proof.
  intros Hv. unfold ptr.Configure.
  destruct (length (strings.Split parameters separator) <? argonNumParameters)%nat
    eqn:El; [by left|].
  destruct (gohash_more.three_fields _ El) as (mode & p1 & p2 & rest & ->).
  cbn [index lookup list_lookup mbind result_bind].
  destruct (strconv.ParseInt p1 8); [by left|].
  destruct (strconv.ParseInt p2 32); [by left|].
  unfold ptr.configureArgon. rewrite Hv. by right.
Qed.

End gohash_receiver.

Lemma ptr_Configure_receiver_irrelevant_witness :
  gohash.ptr.Configure 1%positive "i:2:1024" ":" 16
    (<[ 2%positive := {| gohash.MemoryPasses := 1; gohash.MemorySize := 8;
                          gohash.Mode := "i"; gohash.HashSize := 4 |} ]>
       {[ 1%positive := gohash.default ]})
  = gohash.ptr.Configure 2%positive "i:2:1024" ":" 16
      (<[ 2%positive := {| gohash.MemoryPasses := 1; gohash.MemorySize := 8;
                            gohash.Mode := "i"; gohash.HashSize := 4 |} ]>
         {[ 1%positive := gohash.default ]}).
Proof.
  apply (gohash_receiver.ptr_Configure_receiver_irrelevant 1%positive 2%positive
           gohash.default
           {| gohash.MemoryPasses := 1; gohash.MemorySize := 8;
              gohash.Mode := "i"; gohash.HashSize := 4 |}).
  - rewrite lookup_insert_ne by discriminate. apply lookup_singleton_eq.
  - apply lookup_insert_eq.
Defined.

Lemma ptr_Configure_only_bad_parameters_witness :
  gohash.ptr.Configure 1%positive "x:0:0" ":" 16
    {[ 1%positive := gohash.default ]} = Err errBadParameters.
Proof.
  destruct (gohash_receiver.ptr_Configure_only_bad_parameters 1%positive
              gohash.default "x:0:0" ":" 16 {[ 1%positive := gohash.default ]}
              (lookup_singleton_eq _ _)) as [Hnp Herr].
  destruct (gohash.ptr.Configure 1%positive "x:0:0" ":" 16
              {[ 1%positive := gohash.default ]}) as [r|e|p] eqn:E.
  - vm_compute in E. discriminate E.
  - rewrite (Herr e eq_refl). reflexivity.
  - by specialize (Hnp p).
Defined.
